(** * Entrainment.py: the entrainment-fraction calculator

    A shallow embedding of [src/Entrainment.py] and the proofs of its
    specification.

    Number model.  The script computes with Python floats.  They are
    idealised here as extended reals: a finite float is a real number and the
    arithmetic on finite values is exact; the values [inf], [-inf] and [nan],
    which the script itself produces through [float('inf')], follow the IEEE
    rules for special values.  Python's own behaviour on top of IEEE is kept:
    a division by zero raises [ZeroDivisionError], [math.sqrt], [math.log10]
    and [math.pow] raise [ValueError] outside their domain.  There is no
    signed zero.

    Validity range.  Rounding, overflow and underflow of binary64 are not
    part of the model: a power or a product that leaves the range of a float
    raises [OverflowError], becomes infinite or becomes zero in Python and
    stays a finite real here.  Every theorem below that asserts the outcome
    of a computation on finite values therefore bounds its inputs:
    parameters to [in_range] (between 1e-12 and 1e12), the drop diameter and
    the drag guess of a single iteration to [in_wide_range], a Reynolds
    number to [in_correlation_range].  On these inputs the values the script
    computes stay far inside the range of a float, so that the model differs
    from the script by rounding only: [Rpower_in_range] bounds the powers of
    the correlation, [iteration_reynolds_in_range] and [moderate_reynolds]
    the Reynolds numbers, [moderate_guess] the guesses of a whole run.
    Where a branch of the script tests a computed value against a constant,
    the theorems state the test on the computed value itself, or keep the
    inputs away from the threshold. *)

From Stdlib Require Import Reals Lra Psatz ZArith Lia List String Bool.
Import ListNotations.
Open Scope R_scope.

(** ** Exceptions and fallible results *)

(** The exceptions the script can meet.  [ValueError] carries its message, as
    the handler on line 141 prints it.  [ComplexResult] stands for the one
    Python behaviour outside the number model: [x ** y] for a negative [x] and
    a non-integral [y] is a complex number.  [UnboundLocalError] is the read of
    a variable no iteration has assigned. *)
Inductive exn : Type :=
| ValueError (msg : string)
| ZeroDivisionError
| UnboundLocalError
| ComplexResult.

Inductive res (A : Type) : Type :=
| Val (a : A)
| Exc (e : exn).
Arguments Val {A} a.
Arguments Exc {A} e.

Definition res_bind {A B : Type} (x : res A) (f : A -> res B) : res B :=
  match x with
  | Val a => f a
  | Exc e => Exc e
  end.

Declare Scope res_scope.
Delimit Scope res_scope with res.
Notation "x <- c ;; k" := (res_bind c (fun x => k))
  (at level 61, c at next level, right associativity) : res_scope.
Open Scope res_scope.

(** ** Python floats as extended reals *)

Module PyFloat.

Inductive pyfloat : Type :=
| Fin (r : R)
| PInf
| NInf
| NaN.

Definition Rleb (a b : R) : bool := if Rle_dec a b then true else false.
Definition Rltb (a b : R) : bool := if Rlt_dec a b then true else false.
Definition Reqb (a b : R) : bool := if Req_dec_T a b then true else false.

(** [x <= y], [x < y] and [x == y]: false as soon as one side is [nan]. *)
Definition f_le (x y : pyfloat) : bool :=
  match x, y with
  | NaN, _ | _, NaN => false
  | Fin a, Fin b => Rleb a b
  | NInf, _ => true
  | _, PInf => true
  | PInf, _ => false
  | Fin _, NInf => false
  end.

Definition f_lt (x y : pyfloat) : bool :=
  match x, y with
  | NaN, _ | _, NaN => false
  | Fin a, Fin b => Rltb a b
  | NInf, NInf => false
  | NInf, _ => true
  | PInf, _ => false
  | Fin _, PInf => true
  | Fin _, NInf => false
  end.

Definition f_eq (x y : pyfloat) : bool :=
  match x, y with
  | Fin a, Fin b => Reqb a b
  | PInf, PInf => true
  | NInf, NInf => true
  | _, _ => false
  end.

Definition f_neg (x : pyfloat) : pyfloat :=
  match x with
  | Fin a => Fin (- a)
  | PInf => NInf
  | NInf => PInf
  | NaN => NaN
  end.

Definition f_abs (x : pyfloat) : pyfloat :=
  match x with
  | Fin a => Fin (Rabs a)
  | PInf | NInf => PInf
  | NaN => NaN
  end.

Definition f_add (x y : pyfloat) : pyfloat :=
  match x, y with
  | NaN, _ | _, NaN => NaN
  | Fin a, Fin b => Fin (a + b)
  | PInf, NInf | NInf, PInf => NaN
  | PInf, _ | _, PInf => PInf
  | NInf, _ | _, NInf => NInf
  end.

Definition f_sub (x y : pyfloat) : pyfloat := f_add x (f_neg y).

(** An infinity of the given sign times (or divided by) the finite [r]. *)
Definition scale_inf (positive : bool) (r : R) : pyfloat :=
  if Rltb 0 r then (if positive then PInf else NInf)
  else if Rltb r 0 then (if positive then NInf else PInf)
  else NaN.

Definition f_mul (x y : pyfloat) : pyfloat :=
  match x, y with
  | NaN, _ | _, NaN => NaN
  | Fin a, Fin b => Fin (a * b)
  | PInf, Fin r | Fin r, PInf => scale_inf true r
  | NInf, Fin r | Fin r, NInf => scale_inf false r
  | PInf, PInf | NInf, NInf => PInf
  | PInf, NInf | NInf, PInf => NInf
  end.

(** [x / y]: Python tests the divisor first and raises on zero. *)
Definition f_div (x y : pyfloat) : res pyfloat :=
  if f_eq y (Fin 0) then Exc ZeroDivisionError
  else
    Val match x, y with
        | NaN, _ | _, NaN => NaN
        | Fin a, Fin b => Fin (a / b)
        | Fin _, _ => Fin 0
        | PInf, Fin r => scale_inf true r
        | NInf, Fin r => scale_inf false r
        | _, _ => NaN
        end.

Definition domain_error : exn := ValueError "math domain error".

(** [math.sqrt] *)
Definition math_sqrt (x : pyfloat) : res pyfloat :=
  match x with
  | Fin a => if Rltb a 0 then Exc domain_error else Val (Fin (sqrt a))
  | PInf => Val PInf
  | NInf => Exc domain_error
  | NaN => Val NaN
  end.

(** [math.log10] *)
Definition math_log10 (x : pyfloat) : res pyfloat :=
  match x with
  | Fin a => if Rleb a 0 then Exc domain_error else Val (Fin (ln a / ln 10))
  | PInf => Val PInf
  | NInf => Exc domain_error
  | NaN => Val NaN
  end.

(** Whether the real [y] is an integer, and whether it is an odd one. *)
Definition is_integer (y : R) : bool := Reqb (IZR (Int_part y)) y.
Definition is_odd_integer (y : R) : bool := is_integer y && Z.odd (Int_part y).

(** A power of finite operands.  [math.pow] and [**] differ only in the
    exception for a zero base with a negative exponent ([at_zero]) and in what
    a negative base with a non-integral exponent gives ([at_negative]).  On
    infinite or [nan] operands both follow C99 Annex F (Python 3.11 and
    later). *)
Definition pow_finite (at_zero at_negative : exn) (x y : R) : res pyfloat :=
  if Reqb y 0 then Val (Fin 1)
  else if Rltb 0 x then Val (Fin (Rpower x y))
  else if Reqb x 0 then (if Rltb 0 y then Val (Fin 0) else Exc at_zero)
  else if is_integer y then Val (Fin (powerRZ x (Int_part y)))
  else Exc at_negative.

(** A power with an infinite base: the sign survives an odd exponent. *)
Definition pow_inf_base (x : pyfloat) (y : R) : pyfloat :=
  if Rltb 0 y then (if is_odd_integer y then x else PInf)
  else if Reqb y 0 then Fin 1
  else Fin 0.

(** A power with an infinite exponent [y] (positive when [up]) of the finite
    base [x]. *)
Definition pow_inf_exponent (x : R) (up : bool) : pyfloat :=
  if Reqb (Rabs x) 1 then Fin 1
  else if eqb up (Rltb 1 (Rabs x)) then PInf
  else Fin 0.

(** [math.pow(x, y)] *)
Definition math_pow (x y : pyfloat) : res pyfloat :=
  match x, y with
  | Fin a, Fin b => pow_finite domain_error domain_error a b
  | NaN, _ => Val (if f_eq y (Fin 0) then Fin 1 else NaN)
  | _, NaN => Val (if f_eq x (Fin 1) then Fin 1 else NaN)
  | (PInf | NInf), Fin b => Val (pow_inf_base x b)
  | (PInf | NInf), PInf => Val PInf
  | (PInf | NInf), NInf => Val (Fin 0)
  | Fin a, PInf => Val (pow_inf_exponent a true)
  | Fin a, NInf => Val (pow_inf_exponent a false)
  end.

(** [x ** y] on floats *)
Definition float_pow (x y : pyfloat) : res pyfloat :=
  match x, y with
  | Fin a, Fin b => pow_finite ZeroDivisionError ComplexResult a b
  | NaN, _ => Val (if f_eq y (Fin 0) then Fin 1 else NaN)
  | _, NaN => Val (if f_eq x (Fin 1) then Fin 1 else NaN)
  | (PInf | NInf), Fin b => Val (pow_inf_base x b)
  | (PInf | NInf), PInf => Val PInf
  | (PInf | NInf), NInf => Val (Fin 0)
  | Fin a, PInf => Val (pow_inf_exponent a true)
  | Fin a, NInf => Val (pow_inf_exponent a false)
  end.

End PyFloat.
Export PyFloat.

Declare Scope pyfloat_scope.
Delimit Scope pyfloat_scope with py.
Infix "+" := f_add : pyfloat_scope.
Infix "-" := f_sub : pyfloat_scope.
Infix "*" := f_mul : pyfloat_scope.
Infix "<=?" := f_le (at level 70) : pyfloat_scope.
Infix "<?" := f_lt (at level 70) : pyfloat_scope.
Infix "==?" := f_eq (at level 70) : pyfloat_scope.

(** ** The Schiller-Naumann correlation (lines 7-14) *)

Definition find_cd_from_rep (re_p : pyfloat) : res pyfloat :=
  if (re_p <=? Fin 0)%py then Val PInf
  else
    q1 <- f_div (Fin 24.0) re_p ;;
    p1 <- math_pow re_p (Fin 0.687) ;;
    p2 <- float_pow re_p (Fin 1.16) ;;
    q2 <- f_div (Fin 42500) p2 ;;
    q3 <- f_div (Fin 0.42) (Fin 1 + q2)%py ;;
    Val (q1 * (Fin 1.0 + Fin 0.15 * p1) + q3)%py.

(** ** Console output and control flow of [run_all_calculations] *)

(** One printed line.  [OutVal] is an f-string that formats one float under a
    label; the [:.6f] formatting itself is not modelled. *)
Inductive event : Type :=
| Out (line : string)
| OutVal (label : string) (v : pyfloat)
| OutConverged (iterations : nat)
| OutInvalid (msg : string)
| OutUnexpected (e : exn).

(** How a block of the function ends: it falls through with a value, it
    executes [return], or it raises. *)
Inductive flow (A : Type) : Type :=
| Next (a : A)
| Return_None
| Raise (e : exn).
Arguments Next {A} a.
Arguments Return_None {A}.
Arguments Raise {A} e.

(** A block of statements: the lines it prints and how it ends. *)
Definition proc (A : Type) : Type := (list event * flow A)%type.

Definition ret {A : Type} (a : A) : proc A := ([], Next a).
Definition say (e : event) : proc unit := ([e], Next tt).
Definition return_none {A : Type} : proc A := ([], Return_None).
Definition raise {A : Type} (e : exn) : proc A := ([], Raise e).
Definition eval {A : Type} (r : res A) : proc A :=
  match r with
  | Val a => ([], Next a)
  | Exc e => ([], Raise e)
  end.

Definition bind {A B : Type} (c : proc A) (k : A -> proc B) : proc B :=
  match c with
  | (out, Next a) => let (out', f) := k a in (out ++ out', f)
  | (out, Return_None) => (out, Return_None)
  | (out, Raise e) => (out, Raise e)
  end.

Declare Scope proc_scope.
Delimit Scope proc_scope with proc.
Notation "x <~ c ;; k" := (bind c (fun x => k))
  (at level 61, c at next level, right associativity) : proc_scope.
Notation "c ;;; k" := (bind c (fun _ => k))
  (at level 61, right associativity) : proc_scope.
Open Scope proc_scope.

(** ** The parameters (lines 27-39)

    The script binds its inputs to literals where the prompts used to be; the
    model takes them as a record of finite values, and [reference_parameters]
    are the literals of the source. *)
Record FlowParameters : Type := {
  a2 : R;
  g : R;
  rho_l : R;
  rho_g : R;
  mu_g : R;
  mu_l : R;
  d_capital : R;
  ug : R;
  sigma : R;
  w_l : R
}.

Definition reference_parameters : FlowParameters :=
  {| a2 := 9e-8; g := 9.81; rho_l := 800; rho_g := 70; mu_g := 0.00001;
     mu_l := 0.0001; d_capital := 0.6; ug := 10; sigma := 0.0115;
     w_l := 0.5 |}.

Definition rule : event := Out "----------------------------------------".

Section Pipeline.

Variable p : FlowParameters.

(** *** Step 1: the drop diameter (lines 44-48) *)

Definition drop_diameter : res pyfloat :=
  if ((Fin (sigma p) <=? Fin 0) || (Fin (rho_g p) <=? Fin 0)
      || (Fin (ug p) <=? Fin 0))%py
  then Exc (ValueError
    "Sigma (σ), Gas Density (ρ_G), and U_G must be positive values.")
  else
    ug2 <- float_pow (Fin (ug p)) (Fin 2) ;;
    q <- f_div (Fin (d_capital p) * Fin (sigma p) * Fin 0.0091)%py
               (Fin (rho_g p) * ug2)%py ;;
    math_pow q (Fin 0.5).

(** *** Step 2: the fixed-point iteration (lines 54-78) *)

Definition max_iterations : nat := 500.
Definition tolerance : pyfloat := Fin 1e-6.
Definition initial_cd_guess : pyfloat := Fin 0.4.

(** Lines 65-67: the candidate pair of one iteration. *)
Definition iterate (d cd_guess : pyfloat) : res (pyfloat * pyfloat) :=
  q <- f_div (Fin 4 * d * Fin (g p) * Fin (rho_l p))%py
             (Fin 3 * cd_guess * Fin (rho_g p))%py ;;
  u_t <- math_sqrt q ;;
  re_p_new <- f_div (d * u_t * Fin (rho_g p))%py (Fin (mu_g p)) ;;
  cd_new <- find_cd_from_rep re_p_new ;;
  Val (re_p_new, cd_new).

(** Line 69: the convergence test. *)
Definition within_tolerance (cd_new cd_guess : pyfloat) : bool :=
  (f_abs (cd_new - cd_guess) <? tolerance)%py.

(** The [for ... else] loop with [remaining] iterations to go, [i] done,
    and [last] the pair [(re_p_new, cd_new)] the previous iteration bound. *)
Fixpoint solve_loop (d : pyfloat) (remaining i : nat) (cd_guess : pyfloat)
    (last : option (pyfloat * pyfloat)) : proc (pyfloat * pyfloat) :=
  match remaining with
  | O =>
      say (Out "Warning: Calculation did not converge within the maximum number of iterations.") ;;;
      match last with
      | Some final => ret final
      | None => raise UnboundLocalError
      end
  | S remaining' =>
      if (cd_guess <=? Fin 0)%py then
        say (Out "Error: Cd guess became non-positive. Aborting.") ;;;
        return_none
      else
        new <~ eval (iterate d cd_guess) ;;
        let (re_p_new, cd_new) := new in
        if within_tolerance cd_new cd_guess then
          say (OutConverged (i + 1)) ;;;
          ret (re_p_new, cd_new)
        else
          solve_loop d remaining' (S i) cd_new (Some (re_p_new, cd_new))
  end.

(** Line 58 prints an empty line and then the text. *)
Definition solve (d : pyfloat) : proc (pyfloat * pyfloat) :=
  say (Out EmptyString) ;;;
  say (Out "Starting iterative process for m...") ;;;
  solve_loop d max_iterations 0 initial_cd_guess None.

(** Lines 82-87: the regime exponent. *)
Definition calculate_exponent_m (final_re_p : pyfloat) : pyfloat :=
  if (final_re_p <? Fin 1.92)%py then Fin 1
  else if (final_re_p <? Fin 500)%py then Fin 0.6
  else Fin 0.

(** *** Step 3: omega, Re_LFC and E_M (lines 94-106) *)

Record Onset : Type := { omega : pyfloat; relfc : pyfloat; em : pyfloat }.

Definition onset_correction : res Onset :=
  if ((Fin (mu_g p) ==? Fin 0) || (Fin (rho_l p) ==? Fin 0))%py
  then Exc (ValueError
    "Gas viscosity (μ_G) and Liquid density (ρ_L) cannot be zero.")
  else
    q1 <- f_div (Fin (mu_l p)) (Fin (mu_g p)) ;;
    q2 <- f_div (Fin (rho_g p)) (Fin (rho_l p)) ;;
    s <- math_sqrt q2 ;;
    let omega := (q1 * s)%py in
    if (omega <=? Fin 0)%py
    then Exc (ValueError
      "Omega (ω) must be a positive value for log10 calculation.")
    else
      l1 <- math_log10 omega ;;
      c3 <- float_pow l1 (Fin 3) ;;
      l2 <- math_log10 omega ;;
      c2 <- float_pow l2 (Fin 2) ;;
      l3 <- math_log10 omega ;;
      let relfc :=
        (Fin 7.3 * c3 + Fin 44.2 * c2 - Fin 263 * l3 + Fin 439)%py in
      gamma_c <- f_div (relfc * Fin (mu_l p))%py (Fin 4) ;;
      if (Fin (w_l p) ==? Fin 0)%py
      then Exc (ValueError "W_L cannot be zero.")
      else
        q3 <- f_div (Fin PI * Fin (d_capital p) * gamma_c)%py (Fin (w_l p)) ;;
        Val {| omega := omega; relfc := relfc; em := (Fin 1 - q3)%py |}.

(** *** Step 4: the entrainment fraction (lines 114-139) *)

(** Lines 132-139: the last test, on the computed right-hand side, and the
    entrainment fraction. *)
Definition combine (rhs em : pyfloat) : proc pyfloat :=
  if (Fin 1 + rhs ==? Fin 0)%py
  then raise (ValueError "Division by zero. Please check your inputs.")
  else
    q' <~ eval (f_div rhs (Fin 1 + rhs)%py) ;;
    let e_value := (em * q')%py in
    say rule ;;;
    say (OutVal "The final calculated value of E is: " e_value) ;;;
    ret e_value.

(** Lines 114-130, and then [combine]. *)
Definition final_stage (d m_value em : pyfloat) : proc pyfloat :=
  ug3 <~ eval (math_pow (Fin (ug p)) (Fin 3)) ;;
  s <~ eval (math_sqrt
    (Fin (d_capital p) * ug3 * Fin (rho_l p) * Fin (rho_g p))%py) ;;
  term1 <~ eval (f_div s (Fin (sigma p))) ;;
  n1 <~ eval (math_pow (Fin (rho_g p)) (Fin 1 - m_value)%py) ;;
  n2 <~ eval (math_pow (Fin (mu_g p)) m_value) ;;
  let numerator_term2 := (n1 * n2)%py in
  d1 <~ eval (math_pow d (Fin 1 + m_value)%py) ;;
  let denominator_term2 :=
    (d1 * Fin (g p) * (Fin (rho_l p) - Fin (rho_g p)))%py in
  if (Fin 2 - m_value ==? Fin 0)%py then
    say (Out "Error: The value of 'm' cannot be 2 for this calculation.") ;;;
    return_none
  else
    exponent_term2 <~ eval (f_div (Fin 1) (Fin 2 - m_value)%py) ;;
    if (denominator_term2 <=? Fin 0)%py
    then raise (ValueError "Denominator of term 2 must be positive.")
    else
      q <~ eval (f_div numerator_term2 denominator_term2) ;;
      term2 <~ eval (math_pow q exponent_term2) ;;
      let rhs := (Fin (a2 p) * term1 * term2)%py in
      combine rhs em.

(** *** The body of the [try] block (lines 26-139) *)

(** Lines 80-106: the regime exponent and the onset correction, from the
    pair the iteration ended with. *)
Definition classify_and_onset (final : pyfloat * pyfloat)
    : proc (pyfloat * Onset) :=
  let (final_re_p, final_cd) := final in
  say rule ;;;
  let m_value := calculate_exponent_m final_re_p in
  say (OutVal "Final Converged Reynolds number (Re_p): " final_re_p) ;;;
  say (OutVal "Final Converged Drag Coefficient (Cd): " final_cd) ;;;
  say (OutVal "The calculated exponent 'm' is: " m_value) ;;;
  say rule ;;;
  o <~ eval onset_correction ;;
  ret (m_value, o).

(** Lines 80-139: everything after the iteration. *)
Definition after_solve (d : pyfloat) (final : pyfloat * pyfloat)
    : proc pyfloat :=
  mo <~ classify_and_onset final ;;
  let (m_value, o) := mo in
  say (OutVal "Calculated value of omega (ω): " (omega o)) ;;;
  say (OutVal "Calculated value of Re_LFC: " (relfc o)) ;;;
  say (OutVal "Calculated value of E_M: " (em o)) ;;;
  say rule ;;;
  final_stage d m_value (em o).

Definition calculation : proc pyfloat :=
  say rule ;;;
  d <~ eval drop_diameter ;;
  say (OutVal "Calculated drop diameter (d) using Equation 25: " d) ;;;
  say rule ;;;
  final <~ solve d ;;
  after_solve d final.

(** The handlers of lines 141-144. *)
Definition handle {A : Type} (c : proc A) : list event :=
  match c with
  | (out, Raise (ValueError msg)) => out ++ [OutInvalid msg]
  | (out, Raise e) => out ++ [OutUnexpected e]
  | (out, _) => out
  end.

Definition banner : list event :=
  [ Out "Welcome to the Complete E Value Calculator!";
    Out "Please enter the values for the following parameters (SI units).";
    rule ].

(** [run_all_calculations]: everything the call prints. *)
Definition run_all_calculations : list event :=
  banner ++ handle calculation.

End Pipeline.

(** * The specification's formulas on real numbers *)

(** The correlation as section 4.1 of the specification words it, on a real
    Reynolds number. *)
Definition drag_coefficient (re_p : R) : pyfloat :=
  if Rle_dec re_p 0 then PInf
  else Fin ((24 / re_p) * (1 + 0.15 * Rpower re_p 0.687)
            + 0.42 / (1 + (42500 / Rpower re_p 1.16))).

(** The finite branch of the correlation. *)
Definition schiller_naumann (re_p : R) : R :=
  (24 / re_p) * (1 + 0.15 * Rpower re_p 0.687)
  + 0.42 / (1 + (42500 / Rpower re_p 1.16)).

(** The correlation strictly decreases from each point of a list to the
    next one. *)
Fixpoint decreasing_along (points : list R) : Prop :=
  match points with
  | a :: (b :: _) as rest =>
      (exists cd_a cd_b,
          find_cd_from_rep (Fin a) = Val cd_a /\
          find_cd_from_rep (Fin b) = Val cd_b /\
          (cd_b <? cd_a)%py = true)
      /\ decreasing_along rest
  | _ => True
  end.

Definition representative_points : list R := [0.1; 1; 10; 100; 500].

Section Formulas.

Variable p : FlowParameters.

(** Section 4.2: the droplet diameter. *)
Definition drop_diameter_formula : R :=
  sqrt ((d_capital p * sigma p * 0.0091) / (rho_g p * (ug p) ^ 2)).

(** Section 4.3: terminal velocity, candidate Reynolds number and the
    convergence test of one iteration. *)
Definition terminal_velocity (d cd_guess : R) : R :=
  sqrt ((4 * d * g p * rho_l p) / (3 * cd_guess * rho_g p)).

Definition reynolds_number (d u_t : R) : R := (d * u_t * rho_g p) / mu_g p.


(** Section 4.4: the onset correction. *)
Definition log10 (x : R) : R := ln x / ln 10.

Definition omega_formula : R := (mu_l p / mu_g p) * sqrt (rho_g p / rho_l p).

Definition relfc_formula : R :=
  7.3 * log10 omega_formula ^ 3 + 44.2 * log10 omega_formula ^ 2
  - 263 * log10 omega_formula + 439.

Definition gamma_c_formula : R := relfc_formula * mu_l p / 4.

Definition em_formula : R := 1 - (PI * d_capital p * gamma_c_formula / w_l p).

(** Section 4.5: the final entrainment fraction. *)
Definition term1_formula : R :=
  sqrt (d_capital p * (ug p) ^ 3 * rho_l p * rho_g p) / sigma p.

Definition term2_denominator (d m : R) : R :=
  Rpower d (1 + m) * g p * (rho_l p - rho_g p).

Definition term2_formula (d m : R) : R :=
  Rpower ((Rpower (rho_g p) (1 - m) * Rpower (mu_g p) m)
          / term2_denominator d m)
         (1 / (2 - m)).

Definition rhs_formula (d m : R) : R := a2 p * term1_formula * term2_formula d m.

Definition entrainment_formula (d m e_m : R) : R :=
  e_m * (rhs_formula d m / (1 + rhs_formula d m)).

(** [n] iterations from the guess [c], each of which passes the guard of
    line 60, evaluates and misses the tolerance; [final] is the pair the last
    of them computes. *)
Inductive runs_dry (d : pyfloat) : nat -> pyfloat -> pyfloat * pyfloat -> Prop :=
| dry_last c new :
    (c <=? Fin 0)%py = false ->
    iterate p d c = Val new ->
    within_tolerance (snd new) c = false ->
    runs_dry d 1 c new
| dry_step n c new final :
    (c <=? Fin 0)%py = false ->
    iterate p d c = Val new ->
    within_tolerance (snd new) c = false ->
    runs_dry d n (snd new) final ->
    runs_dry d (S n) c final.


End Formulas.

(** A strictly positive float: a positive real or plus infinity. *)
Definition is_positive (x : pyfloat) : Prop := (Fin 0 <? x)%py = true.

(** The lines the iteration prints. *)
Definition starting_lines : list event :=
  [Out EmptyString; Out "Starting iterative process for m..."].

Definition non_convergence_warning : event :=
  Out "Warning: Calculation did not converge within the maximum number of iterations.".

Definition divergence_abort : event :=
  Out "Error: Cd guess became non-positive. Aborting.".

(** The reference parameters in zero gravity: no drop settles, the Reynolds
    number of every iterate is 0 and the iteration cannot converge. *)
Definition zero_gravity_parameters : FlowParameters :=
  {| a2 := 9e-8; g := 0; rho_l := 800; rho_g := 70; mu_g := 0.00001;
     mu_l := 0.0001; d_capital := 0.6; ug := 10; sigma := 0.0115;
     w_l := 0.5 |}.

(** Parameters of an actual annular flow: every quantity positive and the
    liquid denser than the gas. *)
Definition physical (p : FlowParameters) : Prop :=
  0 < a2 p /\ 0 < g p /\ 0 < rho_g p /\ rho_g p < rho_l p /\ 0 < mu_g p
  /\ 0 < mu_l p /\ 0 < d_capital p /\ 0 < ug p /\ 0 < sigma p /\ 0 < w_l p.





(** The drag coefficient at a Reynolds number of 1, where both powers of the
    correlation are 1; and parameters for which, with a drop diameter of 1,
    that coefficient is an exact fixed point of the iteration. *)
Definition fixed_point_cd : R := 27.6 + 0.42 / 42501.

Definition fixed_point_parameters : FlowParameters :=
  {| a2 := 9e-8; g := 0.75 * fixed_point_cd; rho_l := 1; rho_g := 1;
     mu_g := 1; mu_l := 1; d_capital := 1; ug := 1; sigma := 1; w_l := 1 |}.

(** The two ways a block that computes [E] can end well: it prints [E] as its
    last line and yields it, or it raises a [ValueError] or a
    [ZeroDivisionError]. *)
Definition ends_in_result_or_error (c : proc pyfloat) : Prop :=
  (exists t e_value,
      c = (t ++ [OutVal "The final calculated value of E is: " e_value],
           Next e_value))
  \/ (exists t x,
         c = (t, Raise x)
         /\ (x = ZeroDivisionError \/ exists msg, x = ValueError msg)).

(** The line of the early return on line 120. *)
Definition exponent_abort : event :=
  Out "Error: The value of 'm' cannot be 2 for this calculation.".

(** The reference parameters with no gas viscosity, with a negative pipe
    diameter, with gravity reversed, and with a liquid lighter than the
    gas. *)
Definition zero_viscosity_parameters : FlowParameters :=
  {| a2 := 9e-8; g := 9.81; rho_l := 800; rho_g := 70; mu_g := 0;
     mu_l := 0.0001; d_capital := 0.6; ug := 10; sigma := 0.0115;
     w_l := 0.5 |}.

Definition negative_diameter_parameters : FlowParameters :=
  {| a2 := 9e-8; g := 9.81; rho_l := 800; rho_g := 70; mu_g := 0.00001;
     mu_l := 0.0001; d_capital := -0.6; ug := 10; sigma := 0.0115;
     w_l := 0.5 |}.

Definition negative_gravity_parameters : FlowParameters :=
  {| a2 := 9e-8; g := -9.81; rho_l := 800; rho_g := 70; mu_g := 0.00001;
     mu_l := 0.0001; d_capital := 0.6; ug := 10; sigma := 0.0115;
     w_l := 0.5 |}.


(** The lines a run has printed when the iteration starts. *)
Definition opening_lines (p : FlowParameters) : list event :=
  [rule;
   OutVal "Calculated drop diameter (d) using Equation 25: "
     (Fin (drop_diameter_formula p));
   rule]
  ++ starting_lines.

(** The lines a run has printed when it enters the final stage, given the
    line [status] the iteration ended with and the pair it yielded. *)
Definition report_before_final_stage (p : FlowParameters) (status : event)
    (re_p cd : pyfloat) (m : R) : list event :=
  opening_lines p ++
  [status;
   rule;
   OutVal "Final Converged Reynolds number (Re_p): " re_p;
   OutVal "Final Converged Drag Coefficient (Cd): " cd;
   OutVal "The calculated exponent 'm' is: " (Fin m);
   rule;
   OutVal "Calculated value of omega (ω): " (Fin (omega_formula p));
   OutVal "Calculated value of Re_LFC: " (Fin (relfc_formula p));
   OutVal "Calculated value of E_M: " (Fin (em_formula p));
   rule].

(** ** The range of the inputs *)

(** A quantity of ordinary size: positive, between 1e-12 and 1e12.  The
    quantities the iteration works on, the drop diameter and the drag guess,
    get a wider range, and a Reynolds number a wider one still: the range on
    which neither power of the correlation leaves the floats. *)
Definition in_range (x : R) : Prop := 1e-12 <= x <= 1e12.

Definition in_wide_range (x : R) : Prop := 1e-40 <= x <= 1e40.

Definition in_correlation_range (re_p : R) : Prop := 1e-200 <= re_p <= 1e200.

(** Of ordinary size with either sign; and zero or that. *)
Definition nonzero_in_range (x : R) : Prop := in_range x \/ in_range (- x).

Definition tame (x : R) : Prop := x = 0 \/ nonzero_in_range x.

(** Parameter sets of ordinary size: every parameter positive and in range,
    and every parameter zero or in range with either sign. *)
Definition moderate (p : FlowParameters) : Prop :=
  in_range (a2 p) /\ in_range (g p) /\ in_range (rho_l p)
  /\ in_range (rho_g p) /\ in_range (mu_g p) /\ in_range (mu_l p)
  /\ in_range (d_capital p) /\ in_range (ug p) /\ in_range (sigma p)
  /\ in_range (w_l p).

Definition tame_parameters (p : FlowParameters) : Prop :=
  tame (a2 p) /\ tame (g p) /\ tame (rho_l p) /\ tame (rho_g p)
  /\ tame (mu_g p) /\ tame (mu_l p) /\ tame (d_capital p) /\ tame (ug p)
  /\ tame (sigma p) /\ tame (w_l p).

(** The lines of lines 80-86 for a pair, and those of lines 108-111 for the
    onset values. *)
Definition pair_lines (re_p cd : pyfloat) : list event :=
  [rule;
   OutVal "Final Converged Reynolds number (Re_p): " re_p;
   OutVal "Final Converged Drag Coefficient (Cd): " cd;
   OutVal "The calculated exponent 'm' is: " (calculate_exponent_m re_p);
   rule].

Definition onset_lines (o : Onset) : list event :=
  [OutVal "Calculated value of omega (ω): " (omega o);
   OutVal "Calculated value of Re_LFC: " (relfc o);
   OutVal "Calculated value of E_M: " (em o);
   rule].

(** The reference parameters with both viscosities negative: every Reynolds
    number of the iteration is negative or zero, so the iteration cannot
    converge, and the later stages accept the pair it ends with. *)
Definition negative_viscosity_parameters : FlowParameters :=
  {| a2 := 9e-8; g := 9.81; rho_l := 800; rho_g := 70; mu_g := -0.00001;
     mu_l := -0.0001; d_capital := 0.6; ug := 10; sigma := 0.0115;
     w_l := 0.5 |}.

(** The right-hand side of the final stage in the first regime, where the
    exponents of term 2 are 0, 1, 2 and 1. *)
Definition first_regime_rhs (p : FlowParameters) (d : R) : R :=
  a2 p * term1_formula p * (mu_g p / (d ^ 2 * g p * (rho_l p - rho_g p))).


(** * Proofs *)

(** ** Comparisons and arithmetic on finite values *)

Lemma Rleb_true (a b : R) : a <= b -> Rleb a b = true.
Proof. intros H. unfold Rleb. destruct (Rle_dec a b); [reflexivity | lra]. Qed.

Lemma Rleb_false (a b : R) : b < a -> Rleb a b = false.
Proof. intros H. unfold Rleb. destruct (Rle_dec a b); [lra | reflexivity]. Qed.

Lemma Rltb_true (a b : R) : a < b -> Rltb a b = true.
Proof. intros H. unfold Rltb. destruct (Rlt_dec a b); [reflexivity | lra]. Qed.

Lemma Rltb_false (a b : R) : b <= a -> Rltb a b = false.
Proof. intros H. unfold Rltb. destruct (Rlt_dec a b); [lra | reflexivity]. Qed.

Lemma Reqb_true (a b : R) : a = b -> Reqb a b = true.
Proof.
  intros H. unfold Reqb. destruct (Req_dec_T a b); [reflexivity | contradiction].
Qed.

Lemma Reqb_false (a b : R) : a <> b -> Reqb a b = false.
Proof.
  intros H. unfold Reqb. destruct (Req_dec_T a b); [contradiction | reflexivity].
Qed.

Lemma f_div_finite (a b : R) :
  b <> 0 -> f_div (Fin a) (Fin b) = Val (Fin (a / b)).
Proof. intros H. unfold f_div. cbn. now rewrite Reqb_false. Qed.

Lemma f_div_by_zero (x : pyfloat) : f_div x (Fin 0) = Exc ZeroDivisionError.
Proof. unfold f_div. cbn. now rewrite Reqb_true. Qed.

Lemma math_sqrt_finite (a : R) :
  0 <= a -> math_sqrt (Fin a) = Val (Fin (sqrt a)).
Proof. intros H. cbn. now rewrite Rltb_false. Qed.

Lemma Rpower_pos (x y : R) : 0 < Rpower x y.
Proof. unfold Rpower. apply exp_pos. Qed.

(** Signs of products, quotients, roots and powers. *)
Ltac positivity :=
  first
    [ assumption
    | lra
    | match goal with
      | |- 0 < _ * _ => apply Rmult_lt_0_compat
      | |- 0 < _ / _ => apply Rdiv_lt_0_compat
      | |- 0 < / _ => apply Rinv_0_lt_compat
      | |- 0 < sqrt _ => apply sqrt_lt_R0
      | |- 0 < Rpower _ _ => apply Rpower_pos
      | |- 0 < _ ^ _ => apply pow_lt
      | |- 0 <= _ * _ => apply Rmult_le_pos
      | |- 0 <= _ / _ => unfold Rdiv at 1
      | |- 0 <= / _ => apply Rlt_le, Rinv_0_lt_compat
      | |- 0 <= sqrt _ => apply sqrt_pos
      | |- 0 <= _ ^ _ => apply pow_le
      end; positivity
    | idtac ].

(** Membership of a numeral in the ranges. *)
Ltac in_ranges :=
  unfold moderate, tame_parameters, tame, nonzero_in_range, in_range,
    in_wide_range, in_correlation_range;
  simpl; lra.

(** On a positive base both power operators are the real power. *)
Lemma pow_finite_pos (e1 e2 : exn) (x y : R) :
  0 < x -> pow_finite e1 e2 x y = Val (Fin (Rpower x y)).
Proof.
  intros Hx. unfold pow_finite.
  unfold Reqb at 1. destruct (Req_dec_T y 0) as [-> | _].
  - now rewrite Rpower_O.
  - now rewrite Rltb_true.
Qed.

Lemma math_pow_pos (x y : R) :
  0 < x -> math_pow (Fin x) (Fin y) = Val (Fin (Rpower x y)).
Proof. apply pow_finite_pos. Qed.

Lemma float_pow_pos (x y : R) :
  0 < x -> float_pow (Fin x) (Fin y) = Val (Fin (Rpower x y)).
Proof. apply pow_finite_pos. Qed.

Lemma Rpower_2 (x : R) : 0 < x -> Rpower x 2 = x * x.
Proof.
  intros H. replace 2 with (INR 2) by (simpl; lra).
  rewrite Rpower_pow by assumption. ring.
Qed.

Lemma Rpower_half (x : R) : 0 < x -> Rpower x 0.5 = sqrt x.
Proof.
  intros H. replace 0.5 with (/ 2) by lra. now apply Rpower_sqrt.
Qed.

Lemma Rpower_base_1 (y : R) : Rpower 1 y = 1.
Proof. unfold Rpower. rewrite ln_1, Rmult_0_r. apply exp_0. Qed.

(** A power of a base below 1 decreases with its exponent. *)
Lemma Rpower_small_base (x a b : R) :
  0 < x <= 1 -> a <= b -> Rpower x b <= Rpower x a.
Proof.
  intros [H0 H1] Hab.
  replace (Rpower x b) with (Rpower (/ x) (- b)).
  replace (Rpower x a) with (Rpower (/ x) (- a)).
  - apply Rle_Rpower; [| lra].
    rewrite <- Rinv_1. apply Rinv_le_contravar; lra.
  - unfold Rpower. rewrite ln_Rinv by assumption. f_equal. ring.
  - unfold Rpower. rewrite ln_Rinv by assumption. f_equal. ring.
Qed.




(** ** The drag correlation *)

Lemma find_cd_nonpositive (re_p : R) :
  re_p <= 0 -> find_cd_from_rep (Fin re_p) = Val PInf.
Proof.
  intros H. unfold find_cd_from_rep. cbn. now rewrite Rleb_true.
Qed.

Lemma find_cd_positive (re_p : R) :
  0 < re_p ->
  find_cd_from_rep (Fin re_p) =
  Val (Fin ((24 / re_p) * (1 + 0.15 * Rpower re_p 0.687)
            + 0.42 / (1 + (42500 / Rpower re_p 1.16)))).
Proof.
  intros H. unfold find_cd_from_rep.
  pose proof (Rpower_pos re_p 1.16) as Hq.
  assert (0 < 42500 / Rpower re_p 1.16) as Hd
    by (apply Rdiv_lt_0_compat; lra).
  cbn [f_le]. rewrite Rleb_false by assumption.
  rewrite f_div_finite by lra. cbn [res_bind].
  rewrite math_pow_pos, float_pow_pos by assumption. cbn [res_bind].
  rewrite f_div_finite by lra. cbn [res_bind f_add].
  rewrite f_div_finite by lra. cbn [res_bind f_add f_mul].
  replace 24.0 with 24 by lra. replace 1.0 with 1 by lra. reflexivity.
Qed.

Lemma find_cd_real (re_p : R) :
  find_cd_from_rep (Fin re_p) = Val (drag_coefficient re_p).
Proof.
  unfold drag_coefficient.
  destruct (Rle_dec re_p 0) as [Hle | Hgt].
  - now apply find_cd_nonpositive.
  - apply find_cd_positive. lra.
Qed.



(** The sentinel also answers minus infinity. *)
Lemma find_cd_minus_infinity : find_cd_from_rep NInf = Val PInf.
Proof. reflexivity. Qed.

(** ** The regime exponent *)



(** ** Bounds on rational powers *)

Lemma Rpower_rational_pow (x : R) (n k : nat) :
  0 < x -> (0 < k)%nat -> Rpower x (INR n / INR k) ^ k = x ^ n.
Proof.
  intros Hx Hk.
  rewrite <- Rpower_pow by apply Rpower_pos.
  rewrite Rpower_mult.
  replace (INR n / INR k * INR k) with (INR n).
  - now apply Rpower_pow.
  - field. apply not_0_INR. lia.
Qed.

Lemma Rpower_lt_of_pow (x c : R) (n k : nat) :
  0 < x -> 0 < c -> (0 < k)%nat -> x ^ n < c ^ k ->
  Rpower x (INR n / INR k) < c.
Proof.
  intros Hx Hc Hk Hlt.
  destruct (Rlt_dec (Rpower x (INR n / INR k)) c) as [H | H]; [assumption |].
  exfalso. apply Rnot_lt_le in H.
  assert (c ^ k <= Rpower x (INR n / INR k) ^ k) as Hpow
    by (apply pow_incr; lra).
  rewrite Rpower_rational_pow in Hpow by assumption. lra.
Qed.

Lemma Rpower_gt_of_pow (x c : R) (n k : nat) :
  0 < x -> 0 < c -> (0 < k)%nat -> c ^ k < x ^ n ->
  c < Rpower x (INR n / INR k).
Proof.
  intros Hx Hc Hk Hlt.
  destruct (Rlt_dec c (Rpower x (INR n / INR k))) as [H | H]; [assumption |].
  exfalso. apply Rnot_lt_le in H.
  pose proof (Rpower_pos x (INR n / INR k)) as Hp.
  assert (Rpower x (INR n / INR k) ^ k <= c ^ k) as Hpow
    by (apply pow_incr; lra).
  rewrite Rpower_rational_pow in Hpow by assumption. lra.
Qed.

(** ** Monotonicity of the correlation on the representative points *)

Lemma find_cd_schiller_naumann (re_p : R) :
  0 < re_p -> find_cd_from_rep (Fin re_p) = Val (Fin (schiller_naumann re_p)).
Proof. apply find_cd_positive. Qed.

(** The second summand lies strictly between 0 and 0.42. *)
Lemma schiller_naumann_bounds (re_p : R) :
  0 < re_p ->
  (24 / re_p) * (1 + 0.15 * Rpower re_p 0.687) < schiller_naumann re_p
  /\ schiller_naumann re_p
     < (24 / re_p) * (1 + 0.15 * Rpower re_p 0.687) + 0.42.
Proof.
  intros H. unfold schiller_naumann.
  pose proof (Rpower_pos re_p 1.16) as Hq.
  assert (0 < 42500 / Rpower re_p 1.16) as Hd
    by (apply Rdiv_lt_0_compat; lra).
  set (t := 42500 / Rpower re_p 1.16) in *.
  assert (0 < 0.42 / (1 + t)) by (apply Rdiv_lt_0_compat; lra).
  assert (0.42 / (1 + t) < 0.42).
  { apply Rmult_lt_reg_r with (1 + t); [lra |].
    unfold Rdiv. rewrite Rmult_assoc, Rinv_l by lra. nra. }
  lra.
Qed.

Lemma schiller_naumann_pos (re_p : R) : 0 < re_p -> 0 < schiller_naumann re_p.
Proof.
  intros H. destruct (schiller_naumann_bounds re_p H) as [Hlo _].
  pose proof (Rpower_pos re_p 0.687) as Hp.
  assert (0 < 24 / re_p) by (apply Rdiv_lt_0_compat; lra).
  nra.
Qed.

Lemma Rpower_10_bounds : 1 < Rpower 10 0.687 < 10.
Proof.
  split.
  - rewrite <- (Rpower_O 10) by lra. apply Rpower_lt; lra.
  - rewrite <- (Rpower_1 10) at 2 by lra. apply Rpower_lt; lra.
Qed.

Lemma Rpower_100_bounds : 21.5 < Rpower 100 0.687 < 32.
Proof.
  split.
  - apply Rlt_trans with (Rpower 100 (INR 2 / INR 3)).
    + apply Rpower_gt_of_pow; lra || lia.
    + apply Rpower_lt; [lra | simpl; lra].
  - apply Rlt_trans with (Rpower 100 (INR 3 / INR 4)).
    + apply Rpower_lt; [lra | simpl; lra].
    + apply Rpower_lt_of_pow; lra || lia.
Qed.

Lemma Rpower_500_bound : Rpower 500 0.687 < 72.
Proof.
  apply Rlt_trans with (Rpower 500 (INR 11 / INR 16)).
  - apply Rpower_lt; [lra | simpl; lra].
  - apply Rpower_lt_of_pow; lra || lia.
Qed.

Lemma decreasing_pair (a b : R) :
  0 < a -> 0 < b -> schiller_naumann b < schiller_naumann a ->
  exists cd_a cd_b,
    find_cd_from_rep (Fin a) = Val cd_a /\
    find_cd_from_rep (Fin b) = Val cd_b /\
    (cd_b <? cd_a)%py = true.
Proof.
  intros Ha Hb Hlt.
  exists (Fin (schiller_naumann a)), (Fin (schiller_naumann b)).
  repeat split; try now apply find_cd_schiller_naumann.
  cbn. now apply Rltb_true.
Qed.

(** C9. Over the points 0.1, 1, 10, 100, 500 the drag coefficient of each
    point is strictly greater than that of the next one. *)
Theorem drag_coefficient_decreasing_on_representative_points :
  decreasing_along representative_points.
Proof.
  unfold representative_points. cbn [decreasing_along].
  assert (0 < 0.1) as H01 by lra. assert (0 < 1) as H1 by lra.
  assert (0 < 10) as H10 by lra. assert (0 < 100) as H100 by lra.
  assert (0 < 500) as H500 by lra.
  pose proof (schiller_naumann_bounds 0.1 H01) as [L01 _].
  pose proof (schiller_naumann_bounds 1 H1) as [L1 U1].
  pose proof (schiller_naumann_bounds 10 H10) as [L10 U10].
  pose proof (schiller_naumann_bounds 100 H100) as [L100 U100].
  pose proof (schiller_naumann_bounds 500 H500) as [_ U500].
  pose proof (Rpower_pos 0.1 0.687) as P01.
  rewrite Rpower_base_1 in L1, U1.
  pose proof Rpower_10_bounds as [P10l P10u].
  pose proof Rpower_100_bounds as [P100l P100u].
  pose proof Rpower_500_bound as P500.
  repeat split; try (apply decreasing_pair; lra).
Qed.

(** ** Step 1: the drop diameter *)

Lemma Int_part_IZR (z : Z) : Int_part (IZR z) = z.
Proof. symmetry. apply Int_part_spec. lra. Qed.

Lemma is_integer_IZR (z : Z) : is_integer (IZR z) = true.
Proof. unfold is_integer. rewrite Int_part_IZR. now apply Reqb_true. Qed.

Lemma is_integer_half : is_integer 0.5 = false.
Proof.
  unfold is_integer. rewrite <- (Int_part_spec 0.5 0) by lra.
  apply Reqb_false. lra.
Qed.

(** [math.pow(x, 0.5)] is [math.sqrt(x)], domain error included. *)
Lemma math_pow_half (q : R) : math_pow (Fin q) (Fin 0.5) = math_sqrt (Fin q).
Proof.
  cbn [math_pow math_sqrt]. unfold pow_finite.
  rewrite (Reqb_false 0.5 0) by lra.
  destruct (Rtotal_order q 0) as [Hneg | [Hzero | Hpos]].
  - rewrite (Rltb_false 0 q), (Reqb_false q 0), is_integer_half by lra.
    now rewrite Rltb_true.
  - subst q. rewrite (Rltb_false 0 0), (Reqb_true 0 0) by lra.
    rewrite (Rltb_true 0 0.5) by lra. now rewrite sqrt_0.
  - rewrite (Rltb_true 0 q), (Rltb_false q 0) by lra.
    now rewrite Rpower_half.
Qed.

Lemma drop_diameter_valid (p : FlowParameters) :
  0 < sigma p -> 0 < rho_g p -> 0 < ug p ->
  drop_diameter p =
  math_sqrt (Fin ((d_capital p * sigma p * 0.0091) / (rho_g p * (ug p) ^ 2))).
Proof.
  intros Hs Hr Hu. unfold drop_diameter. cbn [f_le].
  rewrite !Rleb_false by assumption. cbn [orb].
  rewrite float_pow_pos by assumption. cbn [res_bind f_mul].
  rewrite Rpower_2 by assumption.
  assert (0 < rho_g p * (ug p * ug p)) as Hden by positivity.
  rewrite f_div_finite by lra. cbn [res_bind].
  rewrite math_pow_half.
  replace (ug p ^ 2) with (ug p * ug p) by ring. reflexivity.
Qed.

Lemma drop_diameter_invalid (p : FlowParameters) :
  sigma p <= 0 \/ rho_g p <= 0 \/ ug p <= 0 ->
  drop_diameter p =
  Exc (ValueError
    "Sigma (σ), Gas Density (ρ_G), and U_G must be positive values.").
Proof.
  intros H. unfold drop_diameter. cbn [f_le].
  destruct H as [H | [H | H]]; rewrite (Rleb_true _ 0 H);
    rewrite ?orb_true_r; reflexivity.
Qed.

Lemma drop_diameter_real (p : FlowParameters) :
  0 < sigma p -> 0 < rho_g p -> 0 < ug p -> 0 <= d_capital p ->
  drop_diameter p = Val (Fin (drop_diameter_formula p)).
Proof.
  intros Hs Hr Hu HD. rewrite drop_diameter_valid by assumption.
  apply math_sqrt_finite. positivity.
Qed.



(** ** Step 2: one iteration of the solve *)

Lemma iterate_finite (p : FlowParameters) (d c : R) :
  0 < rho_g p -> 0 < c -> 0 <= d -> 0 <= g p * rho_l p -> mu_g p <> 0 ->
  iterate p (Fin d) (Fin c) =
  Val (Fin (reynolds_number p d (terminal_velocity p d c)),
       drag_coefficient (reynolds_number p d (terminal_velocity p d c))).
Proof.
  intros Hr Hc Hd Hg Hmu. unfold iterate. cbn [f_mul].
  assert (0 < 3 * c * rho_g p) as Hden by positivity.
  rewrite f_div_finite by lra. cbn [res_bind].
  rewrite math_sqrt_finite.
  2:{ replace (4 * d * g p * rho_l p) with (4 * d * (g p * rho_l p)) by ring.
      positivity. }
  cbn [res_bind f_mul]. rewrite f_div_finite by assumption. cbn [res_bind].
  rewrite find_cd_real. reflexivity.
Qed.

Lemma within_tolerance_finite (x c : R) :
  within_tolerance (Fin x) (Fin c) = Rltb (Rabs (x - c)) 1e-6.
Proof. reflexivity. Qed.



Lemma solve_loop_guard (p : FlowParameters) (d : pyfloat) (remaining i : nat)
    (c : pyfloat) (last : option (pyfloat * pyfloat)) :
  (c <=? Fin 0)%py = true ->
  solve_loop p d (S remaining) i c last =
  ([Out "Error: Cd guess became non-positive. Aborting."], Return_None).
Proof. intros H. cbn [solve_loop]. rewrite H. reflexivity. Qed.

Lemma solve_loop_raises (p : FlowParameters) (d : pyfloat) (remaining i : nat)
    (c : pyfloat) (last : option (pyfloat * pyfloat)) (e : exn) :
  (c <=? Fin 0)%py = false -> iterate p d c = Exc e ->
  solve_loop p d (S remaining) i c last = ([], Raise e).
Proof. intros H He. cbn [solve_loop]. rewrite H, He. reflexivity. Qed.

Lemma solve_loop_converges (p : FlowParameters) (d : pyfloat)
    (remaining i : nat) (c : pyfloat) (last : option (pyfloat * pyfloat))
    (new : pyfloat * pyfloat) :
  (c <=? Fin 0)%py = false -> iterate p d c = Val new ->
  within_tolerance (snd new) c = true ->
  solve_loop p d (S remaining) i c last = ([OutConverged (i + 1)], Next new).
Proof.
  intros H He Hw. cbn [solve_loop]. rewrite H, He. destruct new as [re cd].
  cbn in Hw |- *. rewrite Hw. reflexivity.
Qed.

Lemma solve_loop_continues (p : FlowParameters) (d : pyfloat)
    (remaining i : nat) (c : pyfloat) (last : option (pyfloat * pyfloat))
    (new : pyfloat * pyfloat) :
  (c <=? Fin 0)%py = false -> iterate p d c = Val new ->
  within_tolerance (snd new) c = false ->
  solve_loop p d (S remaining) i c last =
  solve_loop p d remaining (S i) (snd new) (Some new).
Proof.
  intros H He Hw. cbn [solve_loop]. rewrite H, He. destruct new as [re cd].
  cbn in Hw |- *. rewrite Hw.
  destruct (solve_loop p d remaining (S i) cd (Some (re, cd))). reflexivity.
Qed.

Lemma within_tolerance_infinite (c : pyfloat) : within_tolerance PInf c = false.
Proof. destruct c; reflexivity. Qed.

Lemma drag_coefficient_nonpositive (re_p : R) :
  re_p <= 0 -> drag_coefficient re_p = PInf.
Proof.
  intros H. unfold drag_coefficient. destruct (Rle_dec re_p 0); [reflexivity | lra].
Qed.

(** From an infinite guess the terminal velocity and the Reynolds number are
    0 and the drag coefficient is infinite again. *)
Lemma iterate_from_infinity (p : FlowParameters) (d : R) :
  0 < rho_g p -> mu_g p <> 0 -> iterate p (Fin d) PInf = Val (Fin 0, PInf).
Proof.
  intros Hr Hmu. unfold iterate. cbn [f_mul]. unfold scale_inf.
  rewrite (Rltb_true 0 3) by lra. cbn [f_mul]. unfold scale_inf.
  rewrite (Rltb_true 0 (rho_g p)) by assumption.
  cbn [f_div f_eq res_bind math_sqrt].
  rewrite (Rltb_false 0 0) by lra. cbn [res_bind f_mul].
  rewrite f_div_finite by assumption. cbn [res_bind].
  replace (d * sqrt 0 * rho_g p / mu_g p) with 0
    by (rewrite sqrt_0; unfold Rdiv; ring).
  rewrite find_cd_nonpositive by lra. reflexivity.
Qed.

(** The solve is the loop started with the whole budget, no iteration done,
    the seed as its guess and no pair bound, after its two opening lines. *)
Lemma solve_trace (p : FlowParameters) (d : pyfloat) :
  solve p d =
  (starting_lines ++ fst (solve_loop p d max_iterations 0 initial_cd_guess None),
   snd (solve_loop p d max_iterations 0 initial_cd_guess None)).
Proof.
  unfold solve.
  destruct (solve_loop p d max_iterations 0 initial_cd_guess None)
    as [t [new | | e]]; reflexivity.
Qed.





(** ** Step 2: the iteration budget *)

Lemma runs_dry_exhausts (p : FlowParameters) (d : pyfloat) (n : nat)
    (c : pyfloat) (final : pyfloat * pyfloat) :
  runs_dry p d n c final ->
  forall (i : nat) (last : option (pyfloat * pyfloat)),
    solve_loop p d n i c last = ([non_convergence_warning], Next final).
Proof.
  induction 1 as [c new Hguard Hit Hfar | n c new final Hguard Hit Hfar _ IH];
    intros i last.
  - rewrite (solve_loop_continues p d 0 i c last new) by assumption.
    reflexivity.
  - rewrite (solve_loop_continues p d n i c last new) by assumption.
    apply IH.
Qed.

(** The iteration count a run reports lies within the budget. *)
Lemma converged_count_in_budget (p : FlowParameters) (d : pyfloat) :
  forall (remaining i : nat) (c : pyfloat)
         (last : option (pyfloat * pyfloat)) (n : nat),
    In (OutConverged n) (fst (solve_loop p d remaining i c last)) ->
    (i < n <= i + remaining)%nat.
Proof.
  induction remaining as [| remaining IH]; intros i c last n Hin.
  - cbn in Hin. destruct last; cbn in Hin;
      destruct Hin as [Heq | []]; discriminate Heq.
  - destruct (c <=? Fin 0)%py eqn:Hguard.
    + rewrite solve_loop_guard in Hin by assumption.
      destruct Hin as [Heq | []]. discriminate Heq.
    + destruct (iterate p d c) as [new | e] eqn:Hit.
      * destruct (within_tolerance (snd new) c) eqn:Hw.
        -- rewrite (solve_loop_converges p d remaining i c last new) in Hin
             by assumption.
           destruct Hin as [Heq | []]. injection Heq as <-. lia.
        -- rewrite (solve_loop_continues p d remaining i c last new) in Hin
             by assumption.
           apply IH in Hin. lia.
      * rewrite (solve_loop_raises p d remaining i c last e) in Hin
          by assumption.
        destruct Hin.
Qed.

Lemma calculation_after_solve (p : FlowParameters) (d : pyfloat)
    (t : list event) (final : pyfloat * pyfloat) :
  drop_diameter p = Val d ->
  solve p d = (t, Next final) ->
  calculation p =
  ([rule; OutVal "Calculated drop diameter (d) using Equation 25: " d; rule]
     ++ t ++ fst (after_solve p d final),
   snd (after_solve p d final)).
Proof.
  intros Hd Hs. unfold calculation. rewrite Hd. cbn [eval bind say].
  rewrite Hs. cbn [bind].
  destruct (after_solve p d final) as [t' f]. reflexivity.
Qed.

(** The warning alone, with a pair, is the outcome of a loop that ran dry. *)
Lemma warning_only_when_dry (p : FlowParameters) (d : pyfloat) :
  forall (remaining i : nat) (c : pyfloat)
         (last : option (pyfloat * pyfloat)) (final : pyfloat * pyfloat),
    solve_loop p d remaining i c last = ([non_convergence_warning], Next final) ->
    (remaining = 0%nat /\ last = Some final) \/ runs_dry p d remaining c final.
Proof.
  induction remaining as [| remaining IH]; intros i c last final H.
  - left. split; [reflexivity |].
    cbn in H. destruct last as [x |]; cbn in H; [| discriminate H].
    now injection H as <-.
  - right.
    destruct (c <=? Fin 0)%py eqn:Hguard;
      [rewrite solve_loop_guard in H by assumption; discriminate H |].
    destruct (iterate p d c) as [new | e] eqn:Hit;
      [| rewrite (solve_loop_raises p d remaining i c last e) in H
           by assumption; discriminate H].
    destruct (within_tolerance (snd new) c) eqn:Hw.
    + rewrite (solve_loop_converges p d remaining i c last new) in H
        by assumption.
      discriminate H.
    + rewrite (solve_loop_continues p d remaining i c last new) in H
        by assumption.
      apply IH in H. destruct H as [[-> Hlast] | Hdry].
      * injection Hlast as <-. now apply dry_last.
      * now apply dry_step with (new := new).
Qed.

(** Lines 80-139 on a pair: the lines of the pair, then the onset
    correction and, if it succeeds, its lines and the final stage on the
    exponent of the pair's Reynolds number. *)
Lemma after_solve_lines (p : FlowParameters) (d re_p cd : pyfloat) :
  after_solve p d (re_p, cd) =
  match onset_correction p with
  | Val o =>
      (pair_lines re_p cd ++ onset_lines o
         ++ fst (final_stage p d (calculate_exponent_m re_p) (em o)),
       snd (final_stage p d (calculate_exponent_m re_p) (em o)))
  | Exc e => (pair_lines re_p cd, Raise e)
  end.
Proof.
  unfold after_solve, classify_and_onset.
  destruct (onset_correction p) as [o | e]; [| reflexivity].
  cbn [eval bind say ret app].
  destruct (final_stage p d (calculate_exponent_m re_p) (em o)) as [t f].
  reflexivity.
Qed.

(** C2. The loop runs at most 500 times: whatever the run, a convergence
    report carries a count from 1 to 500.  The solve ends with the
    non-convergence warning and a pair exactly when all 500 iterations from
    the seed 0.4 miss the tolerance, and the pair is that of the last
    iteration: the solve does not fail.  The calculation then goes on with
    lines 80-139 on that pair: it prints the pair and the exponent of its
    Reynolds number, computes the onset correction and enters the final stage
    with that exponent. *)
Theorem exhausted_budget_is_soft :
  forall (p : FlowParameters) (d : pyfloat),
    (forall n : nat,
        In (OutConverged n) (fst (solve p d)) -> (1 <= n <= 500)%nat)
    /\ (forall final : pyfloat * pyfloat,
          runs_dry p d 500 (Fin 0.4) final <->
          solve p d = (starting_lines ++ [non_convergence_warning], Next final))
    /\ (forall final : pyfloat * pyfloat,
          drop_diameter p = Val d ->
          runs_dry p d 500 (Fin 0.4) final ->
          calculation p =
          ([rule; OutVal "Calculated drop diameter (d) using Equation 25: " d;
            rule]
             ++ (starting_lines ++ [non_convergence_warning])
             ++ fst (after_solve p d final),
           snd (after_solve p d final)))
    /\ (forall re_p cd : pyfloat,
          after_solve p d (re_p, cd) =
          match onset_correction p with
          | Val o =>
              (pair_lines re_p cd ++ onset_lines o
                 ++ fst (final_stage p d (calculate_exponent_m re_p) (em o)),
               snd (final_stage p d (calculate_exponent_m re_p) (em o)))
          | Exc e => (pair_lines re_p cd, Raise e)
          end).
Proof.
  intros p d.
  assert (forall final : pyfloat * pyfloat,
             runs_dry p d 500 (Fin 0.4) final ->
             solve p d =
             (starting_lines ++ [non_convergence_warning], Next final))
    as Hsolve.
  { intros final Hdry. rewrite solve_trace.
    change max_iterations with 500%nat.
    change initial_cd_guess with (Fin 0.4).
    now rewrite (runs_dry_exhausts p d _ _ _ Hdry 0%nat None). }
  split; [| split; [| split]].
  - intros n Hin. rewrite solve_trace in Hin. cbn [fst] in Hin.
    apply in_app_or in Hin. destruct Hin as [Hin | Hin].
    + destruct Hin as [Heq | [Heq | []]]; discriminate Heq.
    + apply converged_count_in_budget in Hin.
      unfold max_iterations in Hin. lia.
  - intros final. split; [apply Hsolve |].
    intros H. rewrite solve_trace in H.
    destruct (solve_loop p d max_iterations 0 initial_cd_guess None)
      as [t f] eqn:Hloop.
    cbn [fst snd] in H. injection H as Ht ->.
    subst t.
    apply warning_only_when_dry in Hloop.
    destruct Hloop as [[Hzero _] | Hdry]; [discriminate Hzero | exact Hdry].
  - intros final Hd Hdry. apply calculation_after_solve; [exact Hd |].
    now apply Hsolve.
  - intros re_p cd. apply after_solve_lines.
Qed.

(** *** A run that exhausts the budget: zero gravity *)

Lemma runs_dry_at_infinity (p : FlowParameters) (d : R) (n : nat) :
  0 < rho_g p -> mu_g p <> 0 ->
  runs_dry p (Fin d) (S n) PInf (Fin 0, PInf).
Proof.
  intros Hr Hmu. induction n as [| n IH].
  - apply dry_last;
      [reflexivity | now apply iterate_from_infinity
      | apply within_tolerance_infinite].
  - apply dry_step with (new := (Fin 0, PInf));
      [reflexivity | now apply iterate_from_infinity
      | apply within_tolerance_infinite | exact IH].
Qed.

Lemma iterate_zero_gravity (p : FlowParameters) (d c : R) :
  g p = 0 -> 0 < rho_g p -> mu_g p <> 0 -> 0 <= d -> 0 < c ->
  iterate p (Fin d) (Fin c) = Val (Fin 0, PInf).
Proof.
  intros Hg Hr Hmu Hd Hc.
  rewrite iterate_finite by (try assumption; rewrite Hg; lra).
  assert (reynolds_number p d (terminal_velocity p d c) = 0) as ->.
  { unfold reynolds_number, terminal_velocity. rewrite Hg.
    replace (4 * d * 0 * rho_l p / (3 * c * rho_g p)) with 0
      by (unfold Rdiv; ring).
    rewrite sqrt_0. unfold Rdiv. ring. }
  now rewrite drag_coefficient_nonpositive by lra.
Qed.

Lemma zero_gravity_runs_dry (p : FlowParameters) (d : R) (n : nat) :
  g p = 0 -> 0 < rho_g p -> mu_g p <> 0 -> 0 <= d ->
  runs_dry p (Fin d) (S n) initial_cd_guess (Fin 0, PInf).
Proof.
  intros Hg Hr Hmu Hd. unfold initial_cd_guess.
  assert ((Fin 0.4 <=? Fin 0)%py = false) as Hguard
    by (apply Rleb_false; lra).
  assert (iterate p (Fin d) (Fin 0.4) = Val (Fin 0, PInf)) as Hit
    by (apply iterate_zero_gravity; try assumption; lra).
  destruct n as [| n].
  - apply dry_last; [exact Hguard | exact Hit | apply within_tolerance_infinite].
  - apply dry_step with (new := (Fin 0, PInf));
      [exact Hguard | exact Hit | apply within_tolerance_infinite |].
    now apply runs_dry_at_infinity.
Qed.

Lemma zero_gravity_drop_diameter :
  drop_diameter zero_gravity_parameters =
  Val (Fin (drop_diameter_formula zero_gravity_parameters)).
Proof. apply drop_diameter_real; simpl; lra. Qed.

Lemma zero_gravity_exhausts :
  runs_dry zero_gravity_parameters
    (Fin (drop_diameter_formula zero_gravity_parameters))
    max_iterations initial_cd_guess (Fin 0, PInf).
Proof.
  change max_iterations with (S 499).
  apply zero_gravity_runs_dry; try (simpl; lra).
  unfold drop_diameter_formula. apply sqrt_pos.
Qed.

(** ** Step 3: the onset correction *)

(** An integral positive exponent: [x ** k] and [math.pow(x, k)] are the
    repeated product for every finite base. *)
Lemma pow_finite_positive_integer (e1 e2 : exn) (x : R) (k : positive) :
  pow_finite e1 e2 x (IZR (Z.pos k)) = Val (Fin (x ^ Pos.to_nat k)).
Proof.
  assert (0 < IZR (Z.pos k)) as Hk by (apply IZR_lt; lia).
  unfold pow_finite. rewrite Reqb_false by lra.
  destruct (Rtotal_order x 0) as [Hneg | [Hzero | Hpos]].
  - rewrite (Rltb_false 0 x), (Reqb_false x 0) by lra.
    now rewrite is_integer_IZR, Int_part_IZR.
  - subst x. rewrite (Rltb_false 0 0), (Reqb_true 0 0) by lra.
    rewrite Rltb_true by assumption.
    rewrite pow_i by apply Pos2Nat.is_pos. reflexivity.
  - rewrite (Rltb_true 0 x) by assumption.
    now rewrite <- powerRZ_Rpower by assumption.
Qed.

Lemma float_pow_cube (x : R) : float_pow (Fin x) (Fin 3) = Val (Fin (x ^ 3)).
Proof. apply (pow_finite_positive_integer _ _ x 3). Qed.

Lemma float_pow_square (x : R) : float_pow (Fin x) (Fin 2) = Val (Fin (x ^ 2)).
Proof. apply (pow_finite_positive_integer _ _ x 2). Qed.

Lemma math_log10_positive (x : R) :
  0 < x -> math_log10 (Fin x) = Val (Fin (log10 x)).
Proof. intros H. cbn. now rewrite Rleb_false. Qed.

(** The stage up to the test of [omega]. *)
Lemma onset_zero_denominator (p : FlowParameters) :
  mu_g p = 0 \/ rho_l p = 0 ->
  onset_correction p =
  Exc (ValueError
    "Gas viscosity (μ_G) and Liquid density (ρ_L) cannot be zero.").
Proof.
  intros H. unfold onset_correction. cbn [f_eq].
  destruct H as [H | H]; rewrite (Reqb_true _ 0 H);
    rewrite ?orb_true_r; reflexivity.
Qed.

Lemma onset_negative_ratio (p : FlowParameters) :
  mu_g p <> 0 -> rho_l p <> 0 -> rho_g p / rho_l p < 0 ->
  onset_correction p = Exc domain_error.
Proof.
  intros Hmu Hrho Hneg. unfold onset_correction. cbn [f_eq].
  rewrite !Reqb_false by assumption. cbn [orb].
  rewrite !f_div_finite by assumption. cbn [res_bind math_sqrt].
  now rewrite Rltb_true.
Qed.

Lemma onset_nonpositive_omega (p : FlowParameters) :
  mu_g p <> 0 -> rho_l p <> 0 -> 0 <= rho_g p / rho_l p ->
  omega_formula p <= 0 ->
  onset_correction p =
  Exc (ValueError "Omega (ω) must be a positive value for log10 calculation.").
Proof.
  intros Hmu Hrho Hratio Hom. unfold onset_correction. cbn [f_eq].
  rewrite !Reqb_false by assumption. cbn [orb].
  rewrite !f_div_finite by assumption. cbn [res_bind].
  rewrite math_sqrt_finite by assumption. cbn [res_bind f_mul f_le].
  fold (omega_formula p). now rewrite Rleb_true.
Qed.

Lemma onset_positive_omega (p : FlowParameters) :
  mu_g p <> 0 -> rho_l p <> 0 -> 0 <= rho_g p / rho_l p ->
  0 < omega_formula p ->
  onset_correction p =
  if Req_dec_T (w_l p) 0 then Exc (ValueError "W_L cannot be zero.")
  else Val {| omega := Fin (omega_formula p);
              relfc := Fin (relfc_formula p);
              em := Fin (em_formula p) |}.
Proof.
  intros Hmu Hrho Hratio Hom. unfold onset_correction. cbn [f_eq].
  rewrite !Reqb_false by assumption. cbn [orb].
  rewrite !f_div_finite by assumption. cbn [res_bind].
  rewrite math_sqrt_finite by assumption. cbn [res_bind f_mul f_le].
  fold (omega_formula p). rewrite Rleb_false by assumption.
  rewrite math_log10_positive by assumption. cbn [res_bind].
  rewrite float_pow_cube, float_pow_square. cbn [res_bind f_mul f_add f_sub f_neg].
  rewrite f_div_finite by lra. cbn [res_bind].
  replace (7.3 * log10 (omega_formula p) ^ 3 + 44.2 * log10 (omega_formula p) ^ 2
           + - (263 * log10 (omega_formula p)) + 439)
    with (relfc_formula p) by (unfold relfc_formula; ring).
  fold (gamma_c_formula p).
  unfold Reqb. destruct (Req_dec_T (w_l p) 0) as [Hw | Hw]; [reflexivity |].
  rewrite f_div_finite by assumption. cbn [res_bind f_add f_neg f_mul].
  reflexivity.
Qed.




(** ** Step 4: the entrainment fraction *)

(** Sequencing after an evaluation and after a printed line. *)
Lemma bind_eval {A B : Type} (r : res A) (k : A -> proc B) :
  bind (eval r) k =
  match r with
  | Val a => k a
  | Exc e => ([], Raise e)
  end.
Proof. destruct r as [a | e]; cbn; [now destruct (k a) | reflexivity]. Qed.

Lemma bind_say {B : Type} (e : event) (k : unit -> proc B) :
  bind (say e) k = (e :: fst (k tt), snd (k tt)).
Proof. cbn. now destruct (k tt). Qed.

Lemma math_pow_cube (x : R) : math_pow (Fin x) (Fin 3) = Val (Fin (x ^ 3)).
Proof. apply (pow_finite_positive_integer _ _ x 3). Qed.

Lemma math_pow_positive_integer (x : R) (k : positive) :
  math_pow (Fin x) (Fin (IZR (Z.pos k))) = Val (Fin (x ^ Pos.to_nat k)).
Proof. apply pow_finite_positive_integer. Qed.

(** The whole stage on inputs for which its powers and its root are
    defined. *)
Lemma final_stage_cases (p : FlowParameters) (d m e_m : R) :
  0 < ug p -> 0 < sigma p -> 0 < rho_g p -> 0 < mu_g p -> 0 < d ->
  0 <= d_capital p * rho_l p ->
  final_stage p (Fin d) (Fin m) (Fin e_m) =
  if Req_dec_T m 2 then
    ([Out "Error: The value of 'm' cannot be 2 for this calculation."],
     Return_None)
  else if Rle_dec (term2_denominator p d m) 0 then
    ([], Raise (ValueError "Denominator of term 2 must be positive."))
  else if Req_dec_T (1 + rhs_formula p d m) 0 then
    ([], Raise (ValueError "Division by zero. Please check your inputs."))
  else
    ([rule;
      OutVal "The final calculated value of E is: "
        (Fin (entrainment_formula p d m e_m))],
     Next (Fin (entrainment_formula p d m e_m))).
Proof.
  intros Hu Hs Hr Hmu Hd HD. unfold final_stage, combine.
  rewrite math_pow_cube. cbn [eval bind f_mul app].
  rewrite math_sqrt_finite.
  2:{ replace (d_capital p * ug p ^ 3 * rho_l p * rho_g p)
        with (d_capital p * rho_l p * (ug p ^ 3 * rho_g p)) by ring.
      positivity. }
  cbn [eval bind app]. rewrite f_div_finite by lra.
  fold (term1_formula p). cbn [eval bind app f_sub f_add f_neg].
  rewrite !math_pow_pos by assumption.
  cbn [eval bind app f_mul f_add f_eq f_le].
  change (Rpower d (1 + m) * g p * (rho_l p + - rho_g p))
    with (term2_denominator p d m).
  unfold Reqb at 1. destruct (Req_dec_T (2 + - m) 0) as [Hm | Hm].
  - destruct (Req_dec_T m 2) as [_ | Hne]; [reflexivity | lra].
  - destruct (Req_dec_T m 2) as [He | _]; [lra |].
    rewrite f_div_finite by assumption. cbn [eval bind app].
    unfold Rleb. destruct (Rle_dec (term2_denominator p d m) 0) as [Hden | Hden];
      [reflexivity |].
    apply Rnot_le_lt in Hden.
    rewrite f_div_finite by lra. cbn [eval bind app].
    rewrite math_pow_pos by positivity. cbn [eval bind app f_mul f_add].
    change (a2 p * term1_formula p
            * Rpower (Rpower (rho_g p) (1 + - m) * Rpower (mu_g p) m
                      / term2_denominator p d m) (1 / (2 + - m)))
      with (rhs_formula p d m).
    cbn [f_eq].
    destruct (Req_dec_T (1 + rhs_formula p d m) 0) as [Hz | Hz].
    + rewrite (Reqb_true _ _ Hz). reflexivity.
    + rewrite (Reqb_false _ _ Hz).
      rewrite f_div_finite by assumption. reflexivity.
Qed.

(** With [m = 2] the stage never produces a value, whatever its inputs. *)
Lemma final_stage_m_is_2 (p : FlowParameters) (d e_m : pyfloat)
    (t : list event) (e_value : pyfloat) :
  final_stage p d (Fin 2) e_m <> (t, Next e_value).
Proof.
  unfold final_stage, combine.
  repeat match goal with
    | |- context [eval ?r] =>
        lazymatch r with
        | f_div (Fin 1) _ => fail
        | _ => destruct r; cbn [eval bind app]; [| discriminate]
        end
    end.
  cbn [f_sub f_add f_neg f_eq].
  rewrite Reqb_true by lra. cbn. discriminate.
Qed.

(** Lines 132-139 on a finite right-hand side. *)
Lemma combine_zero (rhs e_m : R) :
  1 + rhs = 0 ->
  combine (Fin rhs) (Fin e_m) =
  ([], Raise (ValueError "Division by zero. Please check your inputs.")).
Proof.
  intros H. unfold combine. cbn [f_add f_eq]. now rewrite Reqb_true.
Qed.

Lemma combine_nonzero (rhs e_m : R) :
  1 + rhs <> 0 ->
  combine (Fin rhs) (Fin e_m) =
  ([rule;
    OutVal "The final calculated value of E is: "
      (Fin (e_m * (rhs / (1 + rhs))))],
   Next (Fin (e_m * (rhs / (1 + rhs))))).
Proof.
  intros H. unfold combine. cbn [f_add f_eq]. rewrite Reqb_false by assumption.
  rewrite f_div_finite by assumption. reflexivity.
Qed.

(** A value of the stage has passed the test of line 119 and is a value of
    lines 132-139 on the right-hand side the stage computed. *)
Lemma final_stage_value (p : FlowParameters) (d m_value e_m : pyfloat)
    (t : list event) (e_value : pyfloat) :
  final_stage p d m_value e_m = (t, Next e_value) ->
  (Fin 2 - m_value ==? Fin 0)%py = false
  /\ exists rhs, combine rhs e_m = (t, Next e_value).
Proof.
  unfold final_stage. intros H.
  repeat match type of H with
    | context [bind (eval ?r) _] =>
        lazymatch r with
        | f_div (Fin 1) _ => fail
        | _ => rewrite (bind_eval r) in H; destruct r; [| discriminate H]
        end
    end.
  cbn zeta in H.
  destruct (Fin 2 - m_value ==? Fin 0)%py; [discriminate H |].
  split; [reflexivity |].
  rewrite bind_eval in H. destruct (f_div (Fin 1) _); [| discriminate H].
  destruct (_ <=? Fin 0)%py; [discriminate H |].
  rewrite bind_eval in H. destruct (f_div _ _); [| discriminate H].
  rewrite bind_eval in H. destruct (math_pow _ _); [| discriminate H].
  eexists. exact H.
Qed.

(** C4. On inputs in range ([ug], [sigma], [rho_g], [mu_g], [D], [rho_l],
    [g] positive and in range, [a2] and [E_M] zero or in range, [d] in the
    wide range, [m] one of 2, 1, 0.6 and 0) the stage computes
    [term1 = sqrt(D ug^3 rho_l rho_g) / sigma],
    [term2 = ((rho_g^(1-m) mu_g^m) / (d^(1+m) g (rho_l - rho_g)))^(1/(2-m))],
    [rhs = a2 term1 term2] and, with [1 + rhs] away from 0,
    [E = E_M * (rhs / (1 + rhs))]; instead of an [E] it returns early when
    [m = 2] and raises when the liquid is not denser than the gas, which
    makes the denominator of term2 non-positive.  Otherwise it ends with its
    last lines, 132-139, on a right-hand side that is [a2 term1 term2] to
    within a relative error of 1e-9; on the right-hand side they are given,
    these lines raise when [1 + rhs = 0] and give [E] otherwise, and every
    value of the stage comes from them.  With [m = 2] the stage yields no
    value for any input at all. *)
Theorem final_stage_spec :
  forall (p : FlowParameters) (d m e_m : R),
    in_range (ug p) -> in_range (sigma p) -> in_range (rho_g p) ->
    in_range (mu_g p) -> in_range (d_capital p) -> in_range (rho_l p) ->
    in_range (g p) -> tame (a2 p) -> in_wide_range d -> tame e_m ->
    m = 2 \/ m = 1 \/ m = 0.6 \/ m = 0 ->
    (m = 2 ->
       final_stage p (Fin d) (Fin m) (Fin e_m) =
       ([Out "Error: The value of 'm' cannot be 2 for this calculation."],
        Return_None))
    /\ (m <> 2 -> rho_l p <= rho_g p ->
        term2_denominator p d m <= 0
        /\ final_stage p (Fin d) (Fin m) (Fin e_m) =
           ([], Raise (ValueError "Denominator of term 2 must be positive.")))
    /\ (m <> 2 -> rho_g p < rho_l p ->
        1e-3 <= Rabs (1 + rhs_formula p d m) ->
        final_stage p (Fin d) (Fin m) (Fin e_m) =
        ([rule;
          OutVal "The final calculated value of E is: "
            (Fin (e_m * (rhs_formula p d m / (1 + rhs_formula p d m))))],
         Next (Fin (e_m * (rhs_formula p d m / (1 + rhs_formula p d m))))))
    /\ (m <> 2 -> rho_g p < rho_l p ->
        exists rhs : R,
          Rabs (rhs - rhs_formula p d m) <= 1e-9 * Rabs (rhs_formula p d m)
          /\ final_stage p (Fin d) (Fin m) (Fin e_m) =
             combine (Fin rhs) (Fin e_m))
    /\ (forall rhs e : R,
          tame rhs -> tame e ->
          (1 + rhs = 0 ->
             combine (Fin rhs) (Fin e) =
             ([], Raise (ValueError
                           "Division by zero. Please check your inputs.")))
          /\ (1 + rhs <> 0 ->
              combine (Fin rhs) (Fin e) =
              ([rule;
                OutVal "The final calculated value of E is: "
                  (Fin (e * (rhs / (1 + rhs))))],
               Next (Fin (e * (rhs / (1 + rhs)))))))
    /\ (forall (d' m' e_m' : pyfloat) (t : list event) (e_value : pyfloat),
          final_stage p d' m' e_m' = (t, Next e_value) ->
          (Fin 2 - m' ==? Fin 0)%py = false
          /\ exists rhs, combine rhs e_m' = (t, Next e_value))
    /\ (forall (d' e_m' : pyfloat) (t : list event) (e_value : pyfloat),
          final_stage p d' (Fin 2) e_m' <> (t, Next e_value)).
Proof.
  intros p d m e_m [Hu _] [Hs _] [Hr _] [Hmu _] [HD _] [Hl _] [Hg _] _ [Hd _] _
    Hm.
  assert (0 <= d_capital p * rho_l p) as HDl by (apply Rmult_le_pos; lra).
  pose proof (final_stage_cases p d m e_m ltac:(lra) ltac:(lra) ltac:(lra)
                ltac:(lra) ltac:(lra) HDl) as Hcases.
  assert (0 < Rpower d (1 + m) * g p) as Hpos
    by (apply Rmult_lt_0_compat; [apply Rpower_pos | lra]).
  split; [| split; [| split; [| split; [| split; [| split]]]]].
  - intros H2. rewrite Hcases.
    destruct (Req_dec_T m 2); [reflexivity | contradiction].
  - intros H2 Hle.
    assert (term2_denominator p d m <= 0) as Hden
      by (unfold term2_denominator; nra).
    split; [exact Hden |]. rewrite Hcases.
    destruct (Req_dec_T m 2); [contradiction |].
    destruct (Rle_dec (term2_denominator p d m) 0); [reflexivity | contradiction].
  - intros H2 Hlt Hfar.
    assert (0 < term2_denominator p d m) as Hden
      by (unfold term2_denominator; nra).
    rewrite Hcases.
    destruct (Req_dec_T m 2); [contradiction |].
    destruct (Rle_dec (term2_denominator p d m) 0); [lra |].
    destruct (Req_dec_T (1 + rhs_formula p d m) 0) as [Hz | _]; [| reflexivity].
    rewrite Hz, Rabs_R0 in Hfar. lra.
  - intros H2 Hlt.
    assert (0 < term2_denominator p d m) as Hden
      by (unfold term2_denominator; nra).
    exists (rhs_formula p d m). split.
    + rewrite Rminus_diag, Rabs_R0.
      pose proof (Rabs_pos (rhs_formula p d m)). lra.
    + rewrite Hcases.
      destruct (Req_dec_T m 2); [contradiction |].
      destruct (Rle_dec (term2_denominator p d m) 0); [lra |].
      destruct (Req_dec_T (1 + rhs_formula p d m) 0) as [Hz | Hz];
        [now rewrite combine_zero | now rewrite combine_nonzero].
  - intros rhs e _ _. split; [apply combine_zero | apply combine_nonzero].
  - intros d' m' e_m' t e_value. apply final_stage_value.
  - intros d' e_m' t e_value. apply final_stage_m_is_2.
Qed.

(** ** The guess stays positive *)

Lemma drag_coefficient_of_positive (re_p : R) :
  0 < re_p -> drag_coefficient re_p = Fin (schiller_naumann re_p).
Proof.
  intros H. unfold drag_coefficient.
  destruct (Rle_dec re_p 0); [lra | reflexivity].
Qed.

Lemma drag_coefficient_is_positive (re_p : R) :
  is_positive (drag_coefficient re_p).
Proof.
  destruct (Rle_dec re_p 0) as [Hle | Hgt].
  - now rewrite drag_coefficient_nonpositive.
  - apply Rnot_le_lt in Hgt. rewrite drag_coefficient_of_positive by assumption.
    apply Rltb_true. now apply schiller_naumann_pos.
Qed.

Lemma is_positive_cases (c : pyfloat) :
  is_positive c -> (exists x, c = Fin x /\ 0 < x) \/ c = PInf.
Proof.
  unfold is_positive. destruct c as [x | | |]; cbn; try discriminate.
  - intros H. left. exists x. split; [reflexivity |].
    unfold Rltb in H. destruct (Rlt_dec 0 x); [assumption | discriminate].
  - intros _. now right.
Qed.

Lemma is_positive_guard (c : pyfloat) :
  is_positive c -> (c <=? Fin 0)%py = false.
Proof.
  intros H. destruct (is_positive_cases c H) as [[x [-> Hx]] | ->].
  - now apply Rleb_false.
  - reflexivity.
Qed.

(** Whatever the inputs, the pair an iteration computes from a positive guess
    carries a positive drag coefficient. *)
Lemma iterate_keeps_positive (p : FlowParameters) (d : R) (c : pyfloat)
    (new : pyfloat * pyfloat) :
  0 < rho_g p -> is_positive c -> iterate p (Fin d) c = Val new ->
  is_positive (snd new).
Proof.
  intros Hr Hc Hit.
  destruct (Req_dec_T (mu_g p) 0) as [Hmu | Hmu].
  - exfalso. unfold iterate in Hit.
    destruct (f_div _ _) as [q |]; cbn [res_bind] in Hit;
      [| discriminate Hit].
    destruct (math_sqrt q) as [u_t |]; cbn [res_bind] in Hit;
      [| discriminate Hit].
    rewrite Hmu, f_div_by_zero in Hit. discriminate Hit.
  - destruct (is_positive_cases c Hc) as [[x [-> Hx]] | ->].
    + unfold iterate in Hit. cbn [f_mul] in Hit.
      assert (0 < 3 * x * rho_g p) as Hden by positivity.
      rewrite f_div_finite in Hit by lra. cbn [res_bind math_sqrt] in Hit.
      destruct (Rltb _ 0); [discriminate Hit |].
      cbn [res_bind f_mul] in Hit. rewrite f_div_finite in Hit by assumption.
      cbn [res_bind] in Hit. rewrite find_cd_real in Hit.
      injection Hit as <-. apply drag_coefficient_is_positive.
    + rewrite iterate_from_infinity in Hit by assumption.
      injection Hit as <-. reflexivity.
Qed.

(** A drop diameter that passed line 44 is a non-negative real, and the gas
    density is positive. *)
Lemma drop_diameter_value (p : FlowParameters) (d : pyfloat) :
  drop_diameter p = Val d ->
  0 < sigma p /\ 0 < rho_g p /\ 0 < ug p /\ exists x, d = Fin x /\ 0 <= x.
Proof.
  intros H.
  destruct (Rle_dec (sigma p) 0) as [Hs | Hs];
    [rewrite drop_diameter_invalid in H by tauto; discriminate H |].
  destruct (Rle_dec (rho_g p) 0) as [Hr | Hr];
    [rewrite drop_diameter_invalid in H by tauto; discriminate H |].
  destruct (Rle_dec (ug p) 0) as [Hu | Hu];
    [rewrite drop_diameter_invalid in H by tauto; discriminate H |].
  apply Rnot_le_lt in Hs, Hr, Hu. repeat split; try assumption.
  rewrite drop_diameter_valid in H by assumption. cbn [math_sqrt] in H.
  destruct (Rltb _ 0); [discriminate H |].
  injection H as <-. eexists. split; [reflexivity | apply sqrt_pos].
Qed.

(** *** Traces *)

Lemma In_bind {A B : Type} (e : event) (c : proc A) (k : A -> proc B) :
  In e (fst (bind c k)) ->
  In e (fst c) \/ exists a, snd c = Next a /\ In e (fst (k a)).
Proof.
  destruct c as [out [a | | x]]; cbn; intros H; try (now left).
  destruct (k a) as [out' f] eqn:Hk. cbn in H. apply in_app_or in H.
  destruct H as [H | H]; [now left | right].
  exists a. split; [reflexivity |]. now rewrite Hk.
Qed.

Lemma fst_eval {A : Type} (r : res A) : fst (eval r) = [].
Proof. destruct r; reflexivity. Qed.


Lemma In_handle {A : Type} (e : event) (c : proc A) :
  In e (handle c) ->
  In e (fst c) \/ (exists msg, e = OutInvalid msg)
  \/ (exists x, e = OutUnexpected x).
Proof.
  destruct c as [out [a | | x]]; cbn [handle fst]; intros H;
    try (now left).
  destruct x; apply in_app_or in H; destruct H as [H | [H | []]];
    try (now left); right; [left | right | right | right]; eauto.
Qed.

(** Decomposes [H : In e (fst c)] along the statements of the block [c],
    closing the cases in which the line printed is visibly another one. *)
Ltac absent H :=
  cbn beta zeta in H;
  lazymatch type of H with
  | In _ (fst (bind _ _)) =>
      apply In_bind in H;
      let a := fresh "a" in
      let Ha := fresh "Ha" in
      destruct H as [H | [a [Ha H]]];
      [ absent H
      | cbn [snd eval say ret] in Ha;
        first [ discriminate Ha
              | try (injection Ha as Ha; subst a); absent H ] ]
  | In _ (fst (eval _)) => rewrite fst_eval in H; destruct H
  | In _ (fst (say _)) =>
      destruct H as [H | []];
      cbv [rule divergence_abort non_convergence_warning] in H; discriminate H
  | In _ (fst (ret _)) => destruct H
  | In _ (fst (raise _)) => destruct H
  | In _ (fst return_none) => destruct H
  | In _ (fst (if ?b then _ else _)) => destruct b; absent H
  | In _ (fst (let (_, _) := ?v in _)) => destruct v; absent H
  | _ => idtac
  end.





(** *** The iteration on parameters in range *)

(** On the range of the correlation both of its powers lie between 1e-251
    and 1e251. *)
Lemma Rpower_in_range (x y : R) :
  in_correlation_range x -> 0 <= y <= 1.25 ->
  1e-251 <= Rpower x y <= 1e251.
Proof.
  unfold in_correlation_range. intros [Hlo Hhi] [Hy0 Hy1].
  assert (1.25 = INR 5 / INR 4) as Hq by (simpl; lra).
  assert (Rpower 1e200 1.25 <= 1e251) as Hup.
  { rewrite Hq. apply Rlt_le. apply Rpower_lt_of_pow; lra || lia. }
  assert (1e-251 <= Rpower 1e-200 1.25) as Hdown.
  { rewrite Hq. apply Rlt_le. apply Rpower_gt_of_pow; lra || lia. }
  destruct (Rle_dec x 1) as [Hle | Hgt].
  - split.
    + apply Rle_trans with (Rpower 1e-200 1.25); [exact Hdown |].
      apply Rle_trans with (Rpower 1e-200 y).
      * apply Rpower_small_base; lra.
      * apply Rle_Rpower_l; lra.
    + apply Rle_trans with 1; [| lra].
      rewrite <- (Rpower_O x) by lra. apply Rpower_small_base; lra.
  - split.
    + apply Rle_trans with 1; [lra |].
      rewrite <- (Rpower_O x) by lra. apply Rle_Rpower; lra.
    + apply Rle_trans with (Rpower 1e200 1.25); [| exact Hup].
      apply Rle_trans with (Rpower 1e200 y).
      * apply Rle_Rpower_l; lra.
      * apply Rle_Rpower; lra.
Qed.









(** ** A complete run on physical parameters *)

Section PhysicalRun.

Variable p : FlowParameters.
Hypothesis Hphysical : physical p.

Local Abbreviation d := (drop_diameter_formula p).











End PhysicalRun.

(** ** The range of the entrainment fraction *)



Lemma sqrt_between (x a b : R) :
  0 <= a -> a * a < x -> x < b * b -> 0 < b -> a < sqrt x < b.
Proof.
  intros Ha Hlo Hhi Hb. split.
  - rewrite <- (sqrt_square a) by assumption.
    apply sqrt_lt_1_alt. split; [nra | assumption].
  - rewrite <- (sqrt_square b) by lra.
    apply sqrt_lt_1_alt. split; [nra | assumption].
Qed.






Lemma reference_physical : physical reference_parameters.
Proof. unfold physical. simpl. lra. Qed.










(** ** The stages on the reference parameters *)



Lemma final_stage_spec_witness :
  final_stage reference_parameters (Fin 0.001) (Fin 0.6) (Fin 0.9) =
  ([rule;
    OutVal "The final calculated value of E is: "
      (Fin (0.9 * (rhs_formula reference_parameters 0.001 0.6
                   / (1 + rhs_formula reference_parameters 0.001 0.6))))],
   Next (Fin (0.9 * (rhs_formula reference_parameters 0.001 0.6
                     / (1 + rhs_formula reference_parameters 0.001 0.6))))).
Proof.
  assert (0 < rhs_formula reference_parameters 0.001 0.6) as Hrhs
    by (unfold rhs_formula, term1_formula, term2_formula; simpl; positivity).
  assert (0 < term2_denominator reference_parameters 0.001 0.6) as Hden
    by (unfold term2_denominator; simpl; positivity).
  apply (final_stage_spec reference_parameters 0.001 0.6 0.9);
    try in_ranges.
  rewrite Rabs_pos_eq; lra.
Defined.

(** *** The second guess of a run *)

Lemma schiller_naumann_at_1 : schiller_naumann 1 = fixed_point_cd.
Proof.
  unfold schiller_naumann, fixed_point_cd. rewrite !Rpower_base_1. lra.
Qed.





(** ** A run that exhausts the budget and still prints [E] *)

(** In the first regime every power of the final stage has an integral
    exponent, so the stage accepts a gas viscosity of either sign. *)
Lemma final_stage_first_regime (p : FlowParameters) (d e_m : R) :
  0 < sigma p -> 0 < rho_g p ->
  0 <= d_capital p * ug p ^ 3 * rho_l p * rho_g p ->
  0 < d ^ 2 * g p * (rho_l p - rho_g p) ->
  1 + first_regime_rhs p d <> 0 ->
  final_stage p (Fin d) (Fin 1) (Fin e_m) =
  ([rule;
    OutVal "The final calculated value of E is: "
      (Fin (e_m * (first_regime_rhs p d / (1 + first_regime_rhs p d))))],
   Next (Fin (e_m * (first_regime_rhs p d / (1 + first_regime_rhs p d))))).
Proof.
  intros Hs Hr Hrad Hden Hrhs. unfold final_stage.
  rewrite math_pow_cube, bind_eval. cbn [f_mul].
  rewrite math_sqrt_finite by assumption. rewrite bind_eval.
  rewrite f_div_finite by lra. rewrite bind_eval. cbn [f_sub f_add f_neg].
  fold (term1_formula p).
  rewrite math_pow_pos by assumption. rewrite bind_eval.
  rewrite (math_pow_positive_integer (mu_g p) 1), bind_eval.
  replace (1 + 1) with 2 by lra.
  rewrite (math_pow_positive_integer d 2).
  rewrite bind_eval. cbn zeta. cbn [f_mul f_add f_neg f_eq f_le].
  rewrite (Reqb_false (2 + - (1)) 0) by lra.
  rewrite f_div_finite by lra. rewrite bind_eval.
  replace (d ^ Pos.to_nat 2) with (d ^ 2) by reflexivity.
  replace (rho_l p + - rho_g p) with (rho_l p - rho_g p) by ring.
  rewrite Rleb_false by assumption.
  rewrite f_div_finite by lra. rewrite bind_eval.
  replace (1 / (2 + - (1))) with 1
    by (replace (2 + - (1)) with 1 by lra; unfold Rdiv; rewrite Rinv_1; lra).
  rewrite (math_pow_positive_integer _ 1), bind_eval. cbn [f_mul].
  replace (a2 p * term1_formula p
           * (Rpower (rho_g p) (1 + - (1)) * mu_g p ^ Pos.to_nat 1
              / (d ^ 2 * g p * (rho_l p - rho_g p))) ^ Pos.to_nat 1)
    with (first_regime_rhs p d).
  - now apply combine_nonzero.
  - unfold first_regime_rhs.
    replace (1 + - (1)) with 0 by lra. rewrite Rpower_O by assumption.
    simpl. unfold Rdiv. ring.
Qed.

Lemma iterate_backwards (p : FlowParameters) (d c : R) :
  0 < rho_g p -> 0 < c -> 0 <= d -> 0 <= g p * rho_l p -> mu_g p < 0 ->
  exists re_p, iterate p (Fin d) (Fin c) = Val (Fin re_p, PInf).
Proof.
  intros Hr Hc Hd Hg Hmu.
  exists (reynolds_number p d (terminal_velocity p d c)).
  rewrite iterate_finite by (try assumption; lra).
  rewrite drag_coefficient_nonpositive; [reflexivity |].
  unfold reynolds_number.
  assert (0 <= d * terminal_velocity p d c * rho_g p) as Hnum.
  { repeat apply Rmult_le_pos; try lra. unfold terminal_velocity.
    apply sqrt_pos. }
  replace (d * terminal_velocity p d c * rho_g p / mu_g p)
    with (- (d * terminal_velocity p d c * rho_g p / (- mu_g p))).
  - assert (0 <= d * terminal_velocity p d c * rho_g p / (- mu_g p)).
    { unfold Rdiv. apply Rmult_le_pos; [exact Hnum |].
      apply Rlt_le, Rinv_0_lt_compat. lra. }
    lra.
  - unfold Rdiv. rewrite Rinv_opp. ring.
Qed.

Lemma backwards_runs_dry (p : FlowParameters) (d : R) (n : nat) :
  0 < rho_g p -> 0 <= d -> 0 <= g p * rho_l p -> mu_g p < 0 ->
  runs_dry p (Fin d) (S (S n)) (Fin 0.4) (Fin 0, PInf).
Proof.
  intros Hr Hd Hg Hmu.
  destruct (iterate_backwards p d 0.4 Hr ltac:(lra) Hd Hg Hmu) as [re_p Hit].
  apply dry_step with (new := (Fin re_p, PInf)).
  - apply Rleb_false. lra.
  - exact Hit.
  - apply within_tolerance_infinite.
  - apply runs_dry_at_infinity; [assumption | lra].
Qed.

Lemma negative_viscosity_rhs :
  -0.01 < first_regime_rhs negative_viscosity_parameters
            (drop_diameter_formula negative_viscosity_parameters) < 0.
Proof.
  unfold first_regime_rhs, term1_formula, drop_diameter_formula.
  rewrite pow2_sqrt by (simpl; lra). simpl.
  destruct (sqrt_between (0.6 * (10 * (10 * (10 * 1))) * 800 * 70) 5000 6000)
    as [Hlo Hhi]; lra.
Qed.

Lemma first_regime_at_zero : calculate_exponent_m (Fin 0) = Fin 1.
Proof.
  unfold calculate_exponent_m. cbn [f_lt]. now rewrite Rltb_true by lra.
Qed.

Lemma negative_viscosity_onset :
  onset_correction negative_viscosity_parameters =
  Val {| omega := Fin (omega_formula negative_viscosity_parameters);
         relfc := Fin (relfc_formula negative_viscosity_parameters);
         em := Fin (em_formula negative_viscosity_parameters) |}.
Proof.
  rewrite onset_positive_omega; try (simpl; lra).
  - destruct (Req_dec_T (w_l negative_viscosity_parameters) 0) as [H | _];
      [simpl in H; lra | reflexivity].
  - unfold omega_formula. simpl.
    apply Rmult_lt_0_compat; [lra | apply sqrt_lt_R0; lra].
Qed.

(** With both viscosities negative the reference run misses the tolerance
    500 times, warns, and prints an [E] computed from the pair [(0, inf)] of
    its last iteration, in the first regime.  (Python prints the zero
    Reynolds number of that pair with the sign of the viscosity it was
    divided by.) *)
Lemma exhausted_budget_witness :
  calculation negative_viscosity_parameters =
  (report_before_final_stage negative_viscosity_parameters
     non_convergence_warning (Fin 0) PInf 1
   ++ [rule;
       OutVal "The final calculated value of E is: "
         (Fin (em_formula negative_viscosity_parameters
               * (first_regime_rhs negative_viscosity_parameters
                    (drop_diameter_formula negative_viscosity_parameters)
                  / (1 + first_regime_rhs negative_viscosity_parameters
                           (drop_diameter_formula
                              negative_viscosity_parameters)))))],
   Next (Fin (em_formula negative_viscosity_parameters
              * (first_regime_rhs negative_viscosity_parameters
                   (drop_diameter_formula negative_viscosity_parameters)
                 / (1 + first_regime_rhs negative_viscosity_parameters
                          (drop_diameter_formula
                             negative_viscosity_parameters)))))).
Proof.
  destruct (exhausted_budget_is_soft negative_viscosity_parameters
              (Fin (drop_diameter_formula negative_viscosity_parameters)))
    as (_ & _ & Hcalc & Hafter).
  rewrite (Hcalc (Fin 0, PInf)).
  - rewrite Hafter, negative_viscosity_onset. cbn [em].
    unfold pair_lines. rewrite first_regime_at_zero.
    rewrite final_stage_first_regime.
    + reflexivity.
    + simpl. lra.
    + simpl. lra.
    + simpl. lra.
    + unfold drop_diameter_formula. rewrite pow2_sqrt by (simpl; lra).
      simpl. lra.
    + pose proof negative_viscosity_rhs. lra.
  - apply drop_diameter_real; simpl; lra.
  - apply (backwards_runs_dry negative_viscosity_parameters _ 498);
      try (simpl; lra).
    unfold drop_diameter_formula. apply sqrt_pos.
Defined.

(** * Further properties of the script *)

(** ** What the arithmetic can raise *)

Lemma f_div_raises (x y : pyfloat) (e : exn) :
  f_div x y = Exc e -> e = ZeroDivisionError.
Proof.
  unfold f_div. destruct (f_eq y (Fin 0)); intros H;
    [now injection H | discriminate H].
Qed.

Lemma math_sqrt_raises (x : pyfloat) (e : exn) :
  math_sqrt x = Exc e -> e = domain_error.
Proof.
  destruct x as [a | | |]; cbn; try discriminate.
  - destruct (Rltb a 0); intros H; [now injection H | discriminate H].
  - intros H. now injection H.
Qed.

Lemma math_log10_raises (x : pyfloat) (e : exn) :
  math_log10 x = Exc e -> e = domain_error.
Proof.
  destruct x as [a | | |]; cbn; try discriminate.
  - destruct (Rleb a 0); intros H; [now injection H | discriminate H].
  - intros H. now injection H.
Qed.

Lemma pow_finite_raises (e1 e2 : exn) (x y : R) (e : exn) :
  pow_finite e1 e2 x y = Exc e -> e = e1 \/ e = e2.
Proof.
  unfold pow_finite.
  destruct (Reqb y 0); [discriminate |].
  destruct (Rltb 0 x); [discriminate |].
  destruct (Reqb x 0).
  - destruct (Rltb 0 y); [discriminate |]. intros H. left. now injection H.
  - destruct (is_integer y); [discriminate |]. intros H. right. now injection H.
Qed.

Lemma math_pow_raises (x y : pyfloat) (e : exn) :
  math_pow x y = Exc e -> e = domain_error.
Proof.
  destruct x, y; cbn [math_pow]; try discriminate.
  intros H. apply pow_finite_raises in H. tauto.
Qed.

(** ** The correlation on the floats that are not numbers *)

Lemma pow_inf_base_fraction (y : R) :
  0 < y -> pow_inf_base PInf y = PInf.
Proof.
  intros H. unfold pow_inf_base. rewrite Rltb_true by assumption.
  now destruct (is_odd_integer y).
Qed.

Lemma find_cd_plus_infinity : find_cd_from_rep PInf = Val NaN.
Proof.
  unfold find_cd_from_rep. cbn [f_le f_div f_eq res_bind math_pow float_pow].
  rewrite !pow_inf_base_fraction by lra.
  cbn [res_bind f_div f_eq f_add f_mul].
  rewrite f_div_finite by lra. cbn [res_bind].
  unfold scale_inf. rewrite (Rltb_true 0 0.15), (Rltb_false 0 0) by lra.
  reflexivity.
Qed.

Lemma find_cd_nan : find_cd_from_rep NaN = Val NaN.
Proof.
  unfold find_cd_from_rep. cbn [f_le f_div f_eq res_bind math_pow float_pow].
  rewrite !Reqb_false by lra. reflexivity.
Qed.

Lemma find_cd_total (re_p : pyfloat) : exists cd, find_cd_from_rep re_p = Val cd.
Proof.
  destruct re_p as [r | | |].
  - rewrite find_cd_real. eauto.
  - rewrite find_cd_plus_infinity. eauto.
  - rewrite find_cd_minus_infinity. eauto.
  - rewrite find_cd_nan. eauto.
Qed.

(** A finite drag coefficient comes from a positive real Reynolds number. *)
Lemma find_cd_finite_value (re_p : pyfloat) (c : R) :
  find_cd_from_rep re_p = Val (Fin c) ->
  exists r, re_p = Fin r /\ 0 < r /\ c = schiller_naumann r.
Proof.
  destruct re_p as [r | | |].
  - rewrite find_cd_real. destruct (Rle_dec r 0) as [Hle | Hgt].
    + rewrite drag_coefficient_nonpositive by assumption. discriminate.
    + apply Rnot_le_lt in Hgt.
      rewrite drag_coefficient_of_positive by assumption.
      intros H. injection H as <-. eauto.
  - rewrite find_cd_plus_infinity. discriminate.
  - rewrite find_cd_minus_infinity. discriminate.
  - rewrite find_cd_nan. discriminate.
Qed.

(** X1. On the floats that are not real numbers the correlation does not
    raise: minus infinity gets the sentinel plus infinity, plus infinity and
    nan get nan; and nan is the answer to these two inputs only.  So the
    sentinel, fed back into the correlation, is not a fixed point of it. *)
Theorem find_cd_from_rep_on_special_values :
  find_cd_from_rep NInf = Val PInf
  /\ find_cd_from_rep PInf = Val NaN
  /\ find_cd_from_rep NaN = Val NaN
  /\ (forall re_p : pyfloat,
        find_cd_from_rep re_p = Val NaN -> re_p = PInf \/ re_p = NaN).
Proof.
  split; [exact find_cd_minus_infinity |].
  split; [exact find_cd_plus_infinity |].
  split; [exact find_cd_nan |].
  intros re_p. destruct re_p as [r | | |]; auto.
  - rewrite find_cd_real. unfold drag_coefficient.
    destruct (Rle_dec r 0); discriminate.
  - rewrite find_cd_minus_infinity. discriminate.
Qed.

(** ** The regime exponent on every float *)

(** X2. Whatever float the iteration ends with, the exponent is 1, 0.6 or 0:
    nan and plus infinity fall through both comparisons to 0, minus infinity
    gets 1.  In particular [2 - m] is never 0. *)
Theorem calculate_exponent_m_values :
  forall final_re_p : pyfloat,
    (calculate_exponent_m final_re_p = Fin 1
     \/ calculate_exponent_m final_re_p = Fin 0.6
     \/ calculate_exponent_m final_re_p = Fin 0)
    /\ (Fin 2 - calculate_exponent_m final_re_p ==? Fin 0)%py = false
    /\ calculate_exponent_m NaN = Fin 0
    /\ calculate_exponent_m PInf = Fin 0
    /\ calculate_exponent_m NInf = Fin 1.
Proof.
  intros final_re_p.
  assert (calculate_exponent_m final_re_p = Fin 1
          \/ calculate_exponent_m final_re_p = Fin 0.6
          \/ calculate_exponent_m final_re_p = Fin 0) as Hvalues.
  { unfold calculate_exponent_m.
    destruct (final_re_p <? Fin 1.92)%py; [now left |].
    destruct (final_re_p <? Fin 500)%py; [right; now left | right; now right]. }
  split; [exact Hvalues |].
  split; [| repeat split].
  destruct Hvalues as [-> | [-> | ->]]; cbn; apply Reqb_false; lra.
Qed.

Lemma exponent_is_not_2 (final_re_p : pyfloat) :
  (Fin 2 - calculate_exponent_m final_re_p ==? Fin 0)%py = false.
Proof.
  unfold calculate_exponent_m.
  destruct (final_re_p <? Fin 1.92)%py;
    [| destruct (final_re_p <? Fin 500)%py]; cbn; apply Reqb_false; lra.
Qed.

(** ** What the iteration yields *)

Lemma iterate_pair (p : FlowParameters) (d c : pyfloat)
    (new : pyfloat * pyfloat) :
  iterate p d c = Val new -> find_cd_from_rep (fst new) = Val (snd new).
Proof.
  unfold iterate. intros H.
  destruct (f_div _ _) as [q |]; cbn [res_bind] in H; [| discriminate H].
  destruct (math_sqrt q) as [u_t |]; cbn [res_bind] in H; [| discriminate H].
  destruct (f_div _ _) as [re_p_new |]; cbn [res_bind] in H;
    [| discriminate H].
  destruct (find_cd_from_rep re_p_new) as [cd_new |] eqn:Hcd;
    cbn [res_bind] in H; [| discriminate H].
  injection H as <-. exact Hcd.
Qed.

Lemma res_bind_raises {A B : Type} (x : res A) (f : A -> res B) (e : exn) :
  res_bind x f = Exc e -> x = Exc e \/ exists a, x = Val a /\ f a = Exc e.
Proof.
  destruct x as [a | e']; cbn; intros H; [right; eauto | left; congruence].
Qed.

Lemma iterate_raises (p : FlowParameters) (d c : pyfloat) (e : exn) :
  iterate p d c = Exc e -> e = domain_error \/ e = ZeroDivisionError.
Proof.
  unfold iterate. intros H.
  apply res_bind_raises in H as [H | (q & _ & H)];
    [right; now apply f_div_raises in H |].
  apply res_bind_raises in H as [H | (u_t & _ & H)];
    [left; now apply math_sqrt_raises in H |].
  apply res_bind_raises in H as [H | (re_p_new & _ & H)];
    [right; now apply f_div_raises in H |].
  destruct (find_cd_total re_p_new) as [cd_new Hcd]. rewrite Hcd in H.
  discriminate H.
Qed.

Lemma within_tolerance_true (cd_new cd_guess : pyfloat) :
  within_tolerance cd_new cd_guess = true ->
  exists x y, cd_new = Fin x /\ cd_guess = Fin y /\ Rabs (x - y) < 1e-6.
Proof.
  destruct cd_new as [x | | |], cd_guess as [y | | |]; cbn; try discriminate.
  unfold Rltb. destruct (Rlt_dec _ _) as [H | H]; [| discriminate].
  intros _. exists x, y. repeat split. exact H.
Qed.

(** The pair the loop yields: computed by the correlation, and announced by
    one line. *)
Lemma solve_loop_pair (p : FlowParameters) (d : pyfloat) :
  forall (remaining i : nat) (c : pyfloat)
         (last : option (pyfloat * pyfloat))
         (t : list event) (final : pyfloat * pyfloat),
    (forall x, last = Some x -> find_cd_from_rep (fst x) = Val (snd x)) ->
    solve_loop p d remaining i c last = (t, Next final) ->
    find_cd_from_rep (fst final) = Val (snd final)
    /\ (t = [non_convergence_warning]
        \/ exists n, t = [OutConverged n] /\ (i < n <= i + remaining)%nat).
Proof.
  induction remaining as [| remaining IH]; intros i c last t final Hlast H.
  - cbn in H. destruct last as [x |]; cbn in H; [| discriminate H].
    injection H as <- <-. split; [now apply Hlast | now left].
  - destruct (c <=? Fin 0)%py eqn:Hguard;
      [rewrite solve_loop_guard in H by assumption; discriminate H |].
    destruct (iterate p d c) as [new | e] eqn:Hit;
      [| rewrite (solve_loop_raises p d remaining i c last e) in H
           by assumption; discriminate H].
    destruct (within_tolerance (snd new) c) eqn:Hw.
    + rewrite (solve_loop_converges p d remaining i c last new) in H
        by assumption.
      injection H as <- <-. split; [now apply iterate_pair in Hit |].
      right. exists (i + 1)%nat. split; [reflexivity | lia].
    + rewrite (solve_loop_continues p d remaining i c last new) in H
        by assumption.
      apply IH in H.
      * destruct H as [Hcd [Ht | [n [Ht Hn]]]]; split; auto.
        right. exists n. split; [exact Ht | lia].
      * intros x Hx. injection Hx as <-. now apply iterate_pair in Hit.
Qed.

(** The pair a convergence report comes with. *)
Lemma solve_loop_converged_pair (p : FlowParameters) (d : pyfloat) :
  forall (remaining i : nat) (c : pyfloat)
         (last : option (pyfloat * pyfloat))
         (t : list event) (final : pyfloat * pyfloat) (n : nat),
    solve_loop p d remaining i c last = (t, Next final) ->
    In (OutConverged n) t ->
    exists guess,
      iterate p d guess = Val final
      /\ within_tolerance (snd final) guess = true.
Proof.
  induction remaining as [| remaining IH]; intros i c last t final n H Hin.
  - cbn in H. destruct last as [x |]; cbn in H; [| discriminate H].
    injection H as <- <-. destruct Hin as [Heq | []]. discriminate Heq.
  - destruct (c <=? Fin 0)%py eqn:Hguard;
      [rewrite solve_loop_guard in H by assumption; discriminate H |].
    destruct (iterate p d c) as [new | e] eqn:Hit;
      [| rewrite (solve_loop_raises p d remaining i c last e) in H
           by assumption; discriminate H].
    destruct (within_tolerance (snd new) c) eqn:Hw.
    + rewrite (solve_loop_converges p d remaining i c last new) in H
        by assumption.
      injection H as <- <-. exists c. now split.
    + rewrite (solve_loop_continues p d remaining i c last new) in H
        by assumption.
      now apply (IH _ _ _ _ _ n H).
Qed.

(** X3. Whenever the solve hands a pair [(Re_p, Cd)] to the later stages,
    converged or not, the pair satisfies the correlation,
    [Cd = find_cd_from_rep(Re_p)], and the solve has printed, after its two
    opening lines, exactly one line: the warning, or the convergence report
    with a count between 1 and 500. *)
Theorem solve_result_satisfies_correlation :
  forall (p : FlowParameters) (d : pyfloat) (t : list event)
         (final_re_p final_cd : pyfloat),
    solve p d = (t, Next (final_re_p, final_cd)) ->
    find_cd_from_rep final_re_p = Val final_cd
    /\ (t = starting_lines ++ [non_convergence_warning]
        \/ exists n, t = starting_lines ++ [OutConverged n]
                     /\ (1 <= n <= 500)%nat).
Proof.
  intros p d t re cd H. rewrite solve_trace in H.
  destruct (solve_loop p d max_iterations 0 initial_cd_guess None)
    as [t' f] eqn:Hloop.
  cbn [fst snd] in H. injection H as <- ->.
  apply solve_loop_pair in Hloop; [| discriminate].
  destruct Hloop as [Hcd [-> | [n [-> Hn]]]]; split; auto.
  right. exists n. split; [reflexivity |]. unfold max_iterations in Hn. lia.
Qed.

Lemma zero_gravity_solve :
  solve zero_gravity_parameters
    (Fin (drop_diameter_formula zero_gravity_parameters)) =
  (starting_lines ++ [non_convergence_warning], Next (Fin 0, PInf)).
Proof.
  rewrite solve_trace.
  now rewrite (runs_dry_exhausts _ _ _ _ _ zero_gravity_exhausts 0%nat None).
Qed.

Lemma solve_result_satisfies_correlation_witness :
  find_cd_from_rep (Fin 0) = Val PInf
  /\ (starting_lines ++ [non_convergence_warning]
      = starting_lines ++ [non_convergence_warning]
      \/ exists n, starting_lines ++ [non_convergence_warning]
                   = starting_lines ++ [OutConverged n]
                   /\ (1 <= n <= 500)%nat).
Proof.
  exact (solve_result_satisfies_correlation zero_gravity_parameters _ _ _ _
           zero_gravity_solve).
Defined.

(** X4. Convergence is reported only on real values: the pair that comes with
    a convergence report has a positive real Reynolds number [r] and the
    finite drag coefficient of the correlation at [r], within 1e-6 of the
    real guess it was computed from.  The sentinel and nan are never
    accepted as converged. *)
Theorem convergence_only_on_finite_values :
  forall (p : FlowParameters) (d : pyfloat) (remaining i : nat) (c : pyfloat)
         (last : option (pyfloat * pyfloat)) (t : list event)
         (final_re_p final_cd : pyfloat) (n : nat),
    solve_loop p d remaining i c last = (t, Next (final_re_p, final_cd)) ->
    In (OutConverged n) t ->
    exists r guess : R,
      final_re_p = Fin r /\ 0 < r
      /\ final_cd = Fin (schiller_naumann r)
      /\ iterate p d (Fin guess) = Val (final_re_p, final_cd)
      /\ Rabs (schiller_naumann r - guess) < 1e-6.
Proof.
  intros p d remaining i c last t re cd n H Hin.
  destruct (solve_loop_converged_pair p d _ _ _ _ _ _ n H Hin)
    as [guess [Hit Hw]].
  cbn [snd] in Hw.
  destruct (within_tolerance_true _ _ Hw) as (x & y & -> & -> & Hclose).
  pose proof (iterate_pair _ _ _ _ Hit) as Hcd. cbn [fst snd] in Hcd.
  destruct (find_cd_finite_value _ _ Hcd) as (r & -> & Hr & ->).
  exists r, y. repeat split; assumption.
Qed.

Lemma fixed_point_iterate :
  iterate fixed_point_parameters (Fin 1) (Fin fixed_point_cd) =
  Val (Fin 1, Fin fixed_point_cd).
Proof.
  assert (0 < fixed_point_cd) as Hc by (unfold fixed_point_cd; lra).
  rewrite iterate_finite; try (simpl; lra).
  assert (reynolds_number fixed_point_parameters 1
            (terminal_velocity fixed_point_parameters 1 fixed_point_cd) = 1)
    as ->.
  { unfold reynolds_number, terminal_velocity. simpl.
    replace (4 * 1 * (0.75 * fixed_point_cd) * 1)
      with (3 * fixed_point_cd * 1) by lra.
    unfold Rdiv. rewrite Rinv_r by lra. rewrite sqrt_1. lra. }
  rewrite drag_coefficient_of_positive by lra.
  now rewrite schiller_naumann_at_1.
Qed.

Lemma fixed_point_converges :
  solve_loop fixed_point_parameters (Fin 1) 1 0 (Fin fixed_point_cd) None =
  ([OutConverged 1], Next (Fin 1, Fin fixed_point_cd)).
Proof.
  apply (solve_loop_converges fixed_point_parameters (Fin 1) 0 0
           (Fin fixed_point_cd) None (Fin 1, Fin fixed_point_cd)).
  - apply Rleb_false. unfold fixed_point_cd. lra.
  - exact fixed_point_iterate.
  - cbn [snd]. rewrite within_tolerance_finite. apply Rltb_true.
    rewrite Rminus_diag, Rabs_R0. lra.
Qed.

Lemma convergence_only_on_finite_values_witness :
  exists r guess : R,
    Fin 1 = Fin r /\ 0 < r
    /\ Fin fixed_point_cd = Fin (schiller_naumann r)
    /\ iterate fixed_point_parameters (Fin 1) (Fin guess) =
       Val (Fin 1, Fin fixed_point_cd)
    /\ Rabs (schiller_naumann r - guess) < 1e-6.
Proof.
  apply (convergence_only_on_finite_values fixed_point_parameters (Fin 1)
           1 0 (Fin fixed_point_cd) None [OutConverged 1] _ _ 1%nat
           fixed_point_converges).
  now left.
Defined.

(** ** How a run ends *)

Lemma ends_after_lines (l : list event) (c : proc pyfloat) :
  ends_in_result_or_error c ->
  ends_in_result_or_error (l ++ fst c, snd c).
Proof.
  intros [(t & e & ->) | (t & x & -> & Hx)]; cbn [fst snd].
  - left. exists (l ++ t), e. now rewrite app_assoc.
  - right. exists (l ++ t), x. now split.
Qed.

Lemma ends_after_line (e : event) (c : proc pyfloat) :
  ends_in_result_or_error c ->
  ends_in_result_or_error (e :: fst c, snd c).
Proof. apply (ends_after_lines [e]). Qed.

Lemma ends_by_raising (t : list event) (x : exn) :
  x = ZeroDivisionError \/ x = domain_error \/ (exists msg, x = ValueError msg) ->
  ends_in_result_or_error (t, Raise x).
Proof.
  intros H. right. exists t, x. split; [reflexivity |].
  destruct H as [H | [H | H]]; auto. right. now exists "math domain error"%string.
Qed.

(** One fallible evaluation at the head of a block: either it raises, which
    ends the block, or the block goes on. *)
Ltac evaluate lemma :=
  lazymatch goal with
  | |- ends_in_result_or_error (bind (eval ?r) _) =>
      rewrite bind_eval;
      let E := fresh "E" in
      destruct r eqn:E;
      [| apply ends_by_raising; apply lemma in E; auto]
  end.

(** A test that raises a [ValueError] when it holds. *)
Ltac branch :=
  lazymatch goal with
  | |- ends_in_result_or_error (if ?b then _ else _) =>
      destruct b; [apply ends_by_raising; eauto |]
  end.

Lemma final_stage_ends (p : FlowParameters) (d m_value e_m : pyfloat) :
  (Fin 2 - m_value ==? Fin 0)%py = false ->
  ends_in_result_or_error (final_stage p d m_value e_m).
Proof.
  intros Hm. unfold final_stage, combine.
  evaluate math_pow_raises. evaluate math_sqrt_raises. evaluate f_div_raises.
  evaluate math_pow_raises. evaluate math_pow_raises. evaluate math_pow_raises.
  cbn zeta. rewrite Hm. clear Hm.
  evaluate f_div_raises. branch.
  evaluate f_div_raises. evaluate math_pow_raises.
  cbn zeta. branch.
  evaluate f_div_raises.
  left. eexists [rule], _. reflexivity.
Qed.

Lemma drop_diameter_raises (p : FlowParameters) (e : exn) :
  drop_diameter p = Exc e -> exists msg, e = ValueError msg.
Proof.
  intros H.
  destruct (Rle_dec (sigma p) 0) as [Hs | Hs];
    [rewrite drop_diameter_invalid in H by tauto; injection H as <-; eauto |].
  destruct (Rle_dec (rho_g p) 0) as [Hr | Hr];
    [rewrite drop_diameter_invalid in H by tauto; injection H as <-; eauto |].
  destruct (Rle_dec (ug p) 0) as [Hu | Hu];
    [rewrite drop_diameter_invalid in H by tauto; injection H as <-; eauto |].
  apply Rnot_le_lt in Hs, Hr, Hu.
  rewrite drop_diameter_valid in H by assumption.
  apply math_sqrt_raises in H. subst e. now exists "math domain error"%string.
Qed.

Lemma onset_raises (p : FlowParameters) (e : exn) :
  onset_correction p = Exc e -> exists msg, e = ValueError msg.
Proof.
  intros H.
  destruct (Req_dec_T (mu_g p) 0) as [Hmu | Hmu];
    [rewrite onset_zero_denominator in H by (now left);
     injection H as <-; eauto |].
  destruct (Req_dec_T (rho_l p) 0) as [Hrho | Hrho];
    [rewrite onset_zero_denominator in H by (now right);
     injection H as <-; eauto |].
  destruct (Rlt_dec (rho_g p / rho_l p) 0) as [Hneg | Hratio];
    [rewrite onset_negative_ratio in H by assumption;
     injection H as <-; now exists "math domain error"%string |].
  apply Rnot_lt_le in Hratio.
  destruct (Rle_dec (omega_formula p) 0) as [Hom | Hom];
    [rewrite onset_nonpositive_omega in H by assumption;
     injection H as <-; eauto |].
  apply Rnot_le_lt in Hom.
  rewrite onset_positive_omega in H by assumption.
  destruct (Req_dec_T (w_l p) 0); [injection H as <-; eauto | discriminate H].
Qed.

Lemma after_solve_ends (p : FlowParameters) (d : pyfloat)
    (final : pyfloat * pyfloat) :
  ends_in_result_or_error (after_solve p d final).
Proof.
  destruct final as [re cd]. unfold after_solve, classify_and_onset.
  destruct (onset_correction p) as [o | e] eqn:Ho.
  - pose proof (final_stage_ends p d (calculate_exponent_m re) (em o)
                  (exponent_is_not_2 re)) as Hfinal.
    cbn [eval bind say ret app].
    destruct (final_stage p d (calculate_exponent_m re) (em o)) as [t f].
    cbn [app].
    repeat apply (ends_after_line _ (_, _)). exact Hfinal.
  - cbn [eval bind say ret app]. apply ends_by_raising.
    apply onset_raises in Ho. auto.
Qed.

(** From a positive guess the loop either yields a pair or raises; it does
    not take the [return] of line 62 and always finds [re_p_new] bound. *)
Lemma solve_loop_ends (p : FlowParameters) (d : R) :
  0 < rho_g p ->
  forall (remaining i : nat) (c : pyfloat) (last : option (pyfloat * pyfloat)),
    is_positive c ->
    (last = None -> remaining <> 0%nat) ->
    (exists t final, solve_loop p (Fin d) remaining i c last = (t, Next final))
    \/ (exists e,
           solve_loop p (Fin d) remaining i c last = ([], Raise e)
           /\ (e = domain_error \/ e = ZeroDivisionError)).
Proof.
  intros Hr. induction remaining as [| remaining IH]; intros i c last Hc Hlast.
  - destruct last as [final |]; [| now contradiction Hlast].
    left. eexists. eexists. reflexivity.
  - pose proof (is_positive_guard c Hc) as Hguard.
    destruct (iterate p (Fin d) c) as [new | e] eqn:Hit.
    + destruct (within_tolerance (snd new) c) eqn:Hw.
      * left. eexists. eexists.
        now apply (solve_loop_converges p _ remaining i c last new).
      * rewrite (solve_loop_continues p _ remaining i c last new)
          by assumption.
        apply IH; [| discriminate].
        now apply (iterate_keeps_positive p d c new).
    + right. exists e. split.
      * now apply solve_loop_raises.
      * now apply iterate_raises in Hit.
Qed.

Lemma calculation_ends (p : FlowParameters) :
  ends_in_result_or_error (calculation p).
Proof.
  unfold calculation. rewrite bind_say.
  destruct (drop_diameter p) as [d | e] eqn:Hd.
  - destruct (drop_diameter_value p d Hd) as (_ & Hr & _ & x & -> & _).
    rewrite bind_eval, bind_say, bind_say. cbn [fst snd].
    apply (ends_after_lines [_; _; _] (_, _)).
    rewrite solve_trace.
    destruct (solve_loop_ends p x Hr max_iterations 0 initial_cd_guess None)
      as [(t & final & Hloop) | (e & Hloop & He)];
      [apply Rltb_true; lra | discriminate | |].
    + rewrite Hloop. cbn [fst snd bind].
      pose proof (after_solve_ends p (Fin x) final) as Hafter.
      destruct (after_solve p (Fin x) final) as [t' f].
      now apply (ends_after_lines _ (_, _)).
    + rewrite Hloop. cbn [fst snd bind]. apply ends_by_raising.
      destruct He as [-> | ->]; auto.
  - rewrite bind_eval. cbn [fst snd]. apply (ends_after_line _ (_, _)).
    apply ends_by_raising. apply drop_diameter_raises in Hd. auto.
Qed.

(** X6. Every run on parameters that are zero or in range, of either sign,
    ends in one of three ways: it prints [E] as its last line; or it raises a
    [ValueError], printed by the first handler; or it raises a
    [ZeroDivisionError], printed by the second.  So no such run takes the
    early [return] of line 62 or of line 121, reads [re_p_new] unbound after
    the loop, or meets a complex power. *)
Theorem every_run_ends_in_result_or_error :
  forall p : FlowParameters,
    tame_parameters p ->
    (exists t e_value,
        calculation p =
        (t ++ [OutVal "The final calculated value of E is: " e_value],
         Next e_value)
        /\ run_all_calculations p =
           banner ++ t
           ++ [OutVal "The final calculated value of E is: " e_value])
    \/ (exists t msg,
           calculation p = (t, Raise (ValueError msg))
           /\ run_all_calculations p = banner ++ t ++ [OutInvalid msg])
    \/ (exists t,
           calculation p = (t, Raise ZeroDivisionError)
           /\ run_all_calculations p =
              banner ++ t ++ [OutUnexpected ZeroDivisionError]).
Proof.
  intros p _. unfold run_all_calculations.
  destruct (calculation_ends p) as [(t & e & ->) | (t & x & -> & [-> | [msg ->]])].
  - left. exists t, e. split; reflexivity.
  - right. right. exists t. split; reflexivity.
  - right. left. exists t, msg. split; reflexivity.
Qed.

Lemma every_run_ends_witness :
  (exists t e_value,
      calculation zero_viscosity_parameters =
      (t ++ [OutVal "The final calculated value of E is: " e_value],
       Next e_value)
      /\ run_all_calculations zero_viscosity_parameters =
         banner ++ t
         ++ [OutVal "The final calculated value of E is: " e_value])
  \/ (exists t msg,
         calculation zero_viscosity_parameters = (t, Raise (ValueError msg))
         /\ run_all_calculations zero_viscosity_parameters =
            banner ++ t ++ [OutInvalid msg])
  \/ (exists t,
         calculation zero_viscosity_parameters = (t, Raise ZeroDivisionError)
         /\ run_all_calculations zero_viscosity_parameters =
            banner ++ t ++ [OutUnexpected ZeroDivisionError]).
Proof.
  apply (every_run_ends_in_result_or_error zero_viscosity_parameters).
  in_ranges.
Defined.

(** *** The early return of line 121 *)

Lemma solve_loop_lines (p : FlowParameters) (d : pyfloat) (e : event) :
  forall (remaining i : nat) (c : pyfloat) (last : option (pyfloat * pyfloat)),
    In e (fst (solve_loop p d remaining i c last)) ->
    e = non_convergence_warning \/ e = divergence_abort
    \/ exists n, e = OutConverged n.
Proof.
  induction remaining as [| remaining IH]; intros i c last Hin.
  - cbn in Hin. destruct last; cbn in Hin; destruct Hin as [<- | []]; now left.
  - destruct (c <=? Fin 0)%py eqn:Hguard.
    + rewrite solve_loop_guard in Hin by assumption.
      destruct Hin as [<- | []]. right. now left.
    + destruct (iterate p d c) as [new | x] eqn:Hit.
      * destruct (within_tolerance (snd new) c) eqn:Hw.
        -- rewrite (solve_loop_converges p d remaining i c last new) in Hin
             by assumption.
           destruct Hin as [<- | []]. right. right. eauto.
        -- rewrite (solve_loop_continues p d remaining i c last new) in Hin
             by assumption.
           now apply IH in Hin.
      * rewrite (solve_loop_raises p d remaining i c last x) in Hin
          by assumption.
        destruct Hin.
Qed.

Lemma exponent_abort_not_in_solve (p : FlowParameters) (d : pyfloat) :
  ~ In (Out "Error: The value of 'm' cannot be 2 for this calculation.")
       (fst (solve p d)).
Proof.
  intros H. rewrite solve_trace in H. cbn [fst] in H.
  apply in_app_or in H. destruct H as [H | H].
  - destruct H as [H | [H | []]]; discriminate H.
  - apply solve_loop_lines in H.
    destruct H as [H | [H | [n H]]]; discriminate H.
Qed.

Lemma exponent_abort_not_in_final_stage (p : FlowParameters)
    (d m_value e_m : pyfloat) :
  (Fin 2 - m_value ==? Fin 0)%py = false ->
  ~ In (Out "Error: The value of 'm' cannot be 2 for this calculation.")
       (fst (final_stage p d m_value e_m)).
Proof.
  intros Hm H. unfold final_stage, combine in H. rewrite Hm in H. clear Hm. absent H.
Qed.

Lemma exponent_abort_not_in_after_solve (p : FlowParameters) (d : pyfloat)
    (final : pyfloat * pyfloat) :
  ~ In (Out "Error: The value of 'm' cannot be 2 for this calculation.")
       (fst (after_solve p d final)).
Proof.
  intros H. destruct final as [re cd].
  unfold after_solve, classify_and_onset in H.
  destruct (onset_correction p) as [o | x].
  - pose proof (exponent_abort_not_in_final_stage p d
                  (calculate_exponent_m re) (em o) (exponent_is_not_2 re))
      as Hfinal.
    cbn [eval bind say ret app] in H.
    destruct (final_stage p d (calculate_exponent_m re) (em o)) as [t f].
    cbn [fst app] in H, Hfinal.
    repeat (destruct H as [H | H]; [discriminate H |]).
    contradiction.
  - cbn in H. repeat (destruct H as [H | H]; [discriminate H |]).
    destruct H.
Qed.

(** X5. The early return of lines 119-121 is dead code: the exponent comes
    from lines 82-87, so [2 - m] is never 0 and no run prints the line
    "Error: The value of 'm' cannot be 2 for this calculation.". *)
Theorem exponent_abort_never_printed :
  forall p : FlowParameters,
    Forall (fun line => line <> exponent_abort) (run_all_calculations p).
Proof.
  intros p. apply Forall_forall. intros line H ->.
  unfold exponent_abort, run_all_calculations in H.
  apply in_app_or in H. destruct H as [H | H].
  - destruct H as [H | [H | [H | []]]]; discriminate H.
  - apply In_handle in H. destruct H as [H | [[msg H] | [x H]]];
      try discriminate H.
    unfold calculation in H. absent H.
    + now apply exponent_abort_not_in_solve in H.
    + now apply exponent_abort_not_in_after_solve in H.
Qed.

(** ** Runs that fail in the first iteration *)

Lemma calculation_first_iteration_raises (p : FlowParameters) (e : exn) :
  drop_diameter p = Val (Fin (drop_diameter_formula p)) ->
  iterate p (Fin (drop_diameter_formula p)) initial_cd_guess = Exc e ->
  calculation p = (opening_lines p, Raise e).
Proof.
  intros Hd Hit. unfold calculation. rewrite Hd.
  rewrite bind_say, bind_eval, bind_say, bind_say. cbn [fst snd].
  assert (solve p (Fin (drop_diameter_formula p)) =
          (starting_lines, Raise e)) as Hsolve.
  { rewrite solve_trace. change max_iterations with (S 499).
    rewrite (solve_loop_raises p _ 499 0 initial_cd_guess None e);
      [reflexivity | apply Rleb_false; lra | exact Hit]. }
  rewrite Hsolve. reflexivity.
Qed.

Lemma iterate_zero_viscosity (p : FlowParameters) (d c : R) :
  0 < rho_g p -> 0 < c -> 0 <= d -> 0 <= g p * rho_l p -> mu_g p = 0 ->
  iterate p (Fin d) (Fin c) = Exc ZeroDivisionError.
Proof.
  intros Hr Hc Hd Hg Hmu. unfold iterate. cbn [f_mul].
  assert (0 < 3 * c * rho_g p) as Hden by positivity.
  rewrite f_div_finite by lra. cbn [res_bind].
  rewrite math_sqrt_finite.
  2:{ replace (4 * d * g p * rho_l p) with (4 * d * (g p * rho_l p)) by ring.
      positivity. }
  cbn [res_bind f_mul]. rewrite Hmu, f_div_by_zero. reflexivity.
Qed.

(** X8. A zero gas viscosity is not caught by the test of line 94, which
    comes after the iteration: on parameters that are zero or in range, with
    the first stage valid and [g * rho_l >= 0], the division of line 66
    raises [ZeroDivisionError] in the first iteration, and the run ends with
    the "unexpected error" line instead of the message of line 95. *)
Theorem zero_gas_viscosity_is_unexpected_error :
  forall p : FlowParameters,
    tame_parameters p ->
    0 < sigma p -> 0 < rho_g p -> 0 < ug p -> 0 <= d_capital p ->
    0 <= g p * rho_l p -> mu_g p = 0 ->
    calculation p = (opening_lines p, Raise ZeroDivisionError)
    /\ run_all_calculations p =
       banner ++ opening_lines p ++ [OutUnexpected ZeroDivisionError].
Proof.
  intros p _ Hs Hr Hu HD Hg Hmu.
  assert (calculation p = (opening_lines p, Raise ZeroDivisionError)) as Hcalc.
  { apply calculation_first_iteration_raises.
    - now apply drop_diameter_real.
    - apply iterate_zero_viscosity; try assumption; try lra.
      unfold drop_diameter_formula. apply sqrt_pos. }
  split; [exact Hcalc |].
  unfold run_all_calculations. now rewrite Hcalc.
Qed.

Lemma zero_gas_viscosity_witness :
  run_all_calculations zero_viscosity_parameters =
  banner ++ opening_lines zero_viscosity_parameters
  ++ [OutUnexpected ZeroDivisionError].
Proof.
  apply (zero_gas_viscosity_is_unexpected_error zero_viscosity_parameters);
    in_ranges.
Defined.

Lemma math_sqrt_negative (a : R) : a < 0 -> math_sqrt (Fin a) = Exc domain_error.
Proof. intros H. cbn. now rewrite Rltb_true. Qed.

Lemma iterate_negative_radicand (p : FlowParameters) (d c : R) :
  0 < rho_g p -> 0 < c -> 0 < d -> g p * rho_l p < 0 ->
  iterate p (Fin d) (Fin c) = Exc domain_error.
Proof.
  intros Hr Hc Hd Hg. unfold iterate. cbn [f_mul].
  assert (0 < 3 * c * rho_g p) as Hden by positivity.
  rewrite f_div_finite by lra. cbn [res_bind].
  rewrite math_sqrt_negative; [reflexivity |].
  replace (4 * d * g p * rho_l p / (3 * c * rho_g p))
    with (- (4 * d * (- (g p * rho_l p)) / (3 * c * rho_g p)))
    by (unfold Rdiv; ring).
  assert (0 < 4 * d * (- (g p * rho_l p)) / (3 * c * rho_g p))
    by positivity.
  lra.
Qed.

(** X9. On parameters that are zero or in range, a negative quantity under
    a square root is reported as "Invalid input: math domain error": a
    negative pipe diameter at line 48, before anything but the banner and a
    rule is printed, and a negative [g * rho_l] at line 65, in the first
    iteration. *)
Theorem negative_radicand_is_domain_error :
  forall p : FlowParameters,
    tame_parameters p ->
    0 < sigma p -> 0 < rho_g p -> 0 < ug p ->
    (d_capital p < 0 ->
       calculation p = ([rule], Raise domain_error)
       /\ run_all_calculations p =
          banner ++ [rule; OutInvalid "math domain error"])
    /\ (0 < d_capital p -> g p * rho_l p < 0 ->
        calculation p = (opening_lines p, Raise domain_error)
        /\ run_all_calculations p =
           banner ++ opening_lines p ++ [OutInvalid "math domain error"]).
Proof.
  intros p _ Hs Hr Hu. split.
  - intros HD.
    assert (drop_diameter p = Exc domain_error) as Hdrop.
    { rewrite drop_diameter_valid by assumption.
      apply math_sqrt_negative.
      replace (d_capital p * sigma p * 0.0091 / (rho_g p * ug p ^ 2))
        with (- ((- d_capital p) * sigma p * 0.0091 / (rho_g p * ug p ^ 2)))
        by (unfold Rdiv; ring).
      assert (0 < (- d_capital p) * sigma p * 0.0091 / (rho_g p * ug p ^ 2))
        by positivity.
      lra. }
    assert (calculation p = ([rule], Raise domain_error)) as Hcalc
      by (unfold calculation; rewrite Hdrop; reflexivity).
    split; [exact Hcalc |].
    unfold run_all_calculations. now rewrite Hcalc.
  - intros HD Hg.
    assert (calculation p = (opening_lines p, Raise domain_error)) as Hcalc.
    { apply calculation_first_iteration_raises.
      - apply drop_diameter_real; lra.
      - apply iterate_negative_radicand; try assumption; try lra.
        unfold drop_diameter_formula. positivity. }
    split; [exact Hcalc |].
    unfold run_all_calculations. now rewrite Hcalc.
Qed.

Lemma negative_radicand_witness :
  run_all_calculations negative_diameter_parameters =
  banner ++ [rule; OutInvalid "math domain error"]
  /\ run_all_calculations negative_gravity_parameters =
     banner ++ opening_lines negative_gravity_parameters
     ++ [OutInvalid "math domain error"].
Proof.
  split.
  - apply (negative_radicand_is_domain_error negative_diameter_parameters);
      in_ranges.
  - apply (negative_radicand_is_domain_error negative_gravity_parameters);
      in_ranges.
Defined.

(** ** Runs in which no drop settles *)

Lemma iterate_without_settling (p : FlowParameters) (d c : R) :
  0 < rho_g p -> mu_g p <> 0 -> 0 < c -> d * g p * rho_l p = 0 ->
  iterate p (Fin d) (Fin c) = Val (Fin 0, PInf).
Proof.
  intros Hr Hmu Hc Hzero. unfold iterate. cbn [f_mul].
  assert (0 < 3 * c * rho_g p) as Hden by positivity.
  rewrite f_div_finite by lra. cbn [res_bind].
  replace (4 * d * g p * rho_l p / (3 * c * rho_g p)) with 0.
  2:{ replace (4 * d * g p * rho_l p) with (4 * (d * g p * rho_l p)) by ring.
      rewrite Hzero. unfold Rdiv. ring. }
  rewrite math_sqrt_finite by lra. cbn [res_bind f_mul].
  rewrite f_div_finite by assumption. cbn [res_bind].
  replace (d * sqrt 0 * rho_g p / mu_g p) with 0
    by (rewrite sqrt_0; unfold Rdiv; ring).
  rewrite find_cd_nonpositive by lra. reflexivity.
Qed.

Lemma runs_dry_without_settling (p : FlowParameters) (d : R) (n : nat) :
  0 < rho_g p -> mu_g p <> 0 -> d * g p * rho_l p = 0 ->
  runs_dry p (Fin d) (S n) initial_cd_guess (Fin 0, PInf).
Proof.
  intros Hr Hmu Hzero. unfold initial_cd_guess.
  assert ((Fin 0.4 <=? Fin 0)%py = false) as Hguard
    by (apply Rleb_false; lra).
  assert (iterate p (Fin d) (Fin 0.4) = Val (Fin 0, PInf)) as Hit
    by (apply iterate_without_settling; try assumption; lra).
  destruct n as [| n].
  - apply dry_last; [exact Hguard | exact Hit | apply within_tolerance_infinite].
  - apply dry_step with (new := (Fin 0, PInf));
      [exact Hguard | exact Hit | apply within_tolerance_infinite |].
    now apply runs_dry_at_infinity.
Qed.

(** In the first regime every power of the final stage has an integral
    exponent; the stage then rejects a denominator [d^2 g (rho_l - rho_g)]
    that is not positive, unless its square root fails first. *)
Lemma final_stage_first_regime_rejects (p : FlowParameters) (d : R)
    (e_m : pyfloat) :
  0 < ug p -> 0 < sigma p -> 0 < rho_g p ->
  d * d * g p * (rho_l p - rho_g p) <= 0 ->
  exists msg, final_stage p (Fin d) (Fin 1) e_m = ([], Raise (ValueError msg)).
Proof.
  intros Hu Hs Hr Hden. unfold final_stage, combine.
  rewrite math_pow_cube, bind_eval. cbn [f_mul].
  destruct (Rlt_dec (d_capital p * ug p ^ 3 * rho_l p * rho_g p) 0)
    as [Hneg | Hpos].
  - rewrite math_sqrt_negative by assumption. rewrite bind_eval.
    now exists "math domain error"%string.
  - rewrite math_sqrt_finite by lra. rewrite bind_eval.
    rewrite f_div_finite by lra. rewrite bind_eval. cbn [f_sub f_add f_neg].
    rewrite math_pow_pos by assumption. rewrite bind_eval.
    rewrite (math_pow_positive_integer (mu_g p) 1), bind_eval.
    replace (1 + 1) with 2 by lra.
    rewrite (math_pow_positive_integer d 2).
    rewrite bind_eval. cbn zeta. cbn [f_mul f_add f_neg f_eq f_le].
    rewrite (Reqb_false (2 + - (1)) 0) by lra.
    rewrite f_div_finite by lra. rewrite bind_eval.
    rewrite Rleb_true; [now eexists |].
    replace (d ^ Pos.to_nat 2) with (d * d) by (simpl; ring).
    exact Hden.
Qed.

Lemma after_solve_without_settling (p : FlowParameters) (d : R) :
  0 < ug p -> 0 < sigma p -> 0 < rho_g p ->
  rho_l p = 0 \/ d * d * g p * (rho_l p - rho_g p) <= 0 ->
  exists t msg,
    after_solve p (Fin d) (Fin 0, PInf) = (t, Raise (ValueError msg)).
Proof.
  intros Hu Hs Hr Hcase. unfold after_solve, classify_and_onset.
  assert (calculate_exponent_m (Fin 0) = Fin 1) as ->
    by (unfold calculate_exponent_m; cbn [f_lt]; now rewrite Rltb_true by lra).
  destruct (onset_correction p) as [o | e] eqn:Ho.
  - destruct Hcase as [Hrho | Hden];
      [rewrite onset_zero_denominator in Ho by (now right); discriminate Ho |].
    destruct (final_stage_first_regime_rejects p d (em o) Hu Hs Hr Hden)
      as [msg Hfinal].
    cbn [eval bind say ret app]. rewrite Hfinal. eexists. now exists msg.
  - destruct (onset_raises p e Ho) as [msg ->].
    cbn [eval bind say ret app]. eexists. now exists msg.
Qed.

(** X7. When no drop settles (a zero pipe diameter, and so a zero drop
    diameter, or zero gravity, or a zero liquid density, the parameters being
    zero or in range, with the first stage valid and [mu_g <> 0]) the
    iteration cannot converge: every iterate is
    [(0, inf)], all 500 iterations run, the warning is printed and the
    exponent is 1.  The run then ends in a [ValueError]; it never prints
    [E]. *)
Theorem no_settling_never_converges :
  forall p : FlowParameters,
    tame_parameters p ->
    0 < sigma p -> 0 < rho_g p -> 0 < ug p -> 0 <= d_capital p ->
    mu_g p <> 0 ->
    d_capital p = 0 \/ g p = 0 \/ rho_l p = 0 ->
    solve p (Fin (drop_diameter_formula p)) =
    (starting_lines ++ [non_convergence_warning], Next (Fin 0, PInf))
    /\ calculate_exponent_m (Fin 0) = Fin 1
    /\ exists t msg,
         calculation p =
         (opening_lines p ++ [non_convergence_warning] ++ t,
          Raise (ValueError msg))
         /\ run_all_calculations p =
            banner ++ opening_lines p ++ [non_convergence_warning] ++ t
            ++ [OutInvalid msg].
Proof.
  intros p _ Hs Hr Hu HD Hmu Hcase.
  set (d := drop_diameter_formula p).
  assert (d_capital p = 0 -> d = 0) as Hd0.
  { intros H0. unfold d, drop_diameter_formula. rewrite H0.
    replace (0 * sigma p * 0.0091 / (rho_g p * ug p ^ 2)) with 0
      by (unfold Rdiv; ring).
    apply sqrt_0. }
  assert (d * g p * rho_l p = 0) as Hzero.
  { destruct Hcase as [H0 | [H0 | H0]];
      [rewrite (Hd0 H0) | rewrite H0 | rewrite H0]; ring. }
  assert (solve p (Fin d) =
          (starting_lines ++ [non_convergence_warning], Next (Fin 0, PInf)))
    as Hsolve.
  { rewrite solve_trace. change max_iterations with (S 499).
    now rewrite (runs_dry_exhausts p _ _ _ _
                   (runs_dry_without_settling p d 499 Hr Hmu Hzero)
                   0%nat None). }
  split; [exact Hsolve |].
  split;
    [unfold calculate_exponent_m; cbn [f_lt]; now rewrite Rltb_true by lra |].
  destruct (after_solve_without_settling p d Hu Hs Hr) as (t & msg & Hafter).
  { destruct Hcase as [H0 | [H0 | H0]];
      [right; rewrite (Hd0 H0) | right; rewrite H0 | now left]; lra. }
  exists t, msg.
  assert (calculation p =
          (opening_lines p ++ [non_convergence_warning] ++ t,
           Raise (ValueError msg))) as Hcalc.
  { rewrite (calculation_after_solve p (Fin d) _ _
               (drop_diameter_real p Hs Hr Hu HD) Hsolve).
    rewrite Hafter. unfold opening_lines. cbn [fst snd].
    now rewrite <- !app_assoc. }
  split; [exact Hcalc |].
  unfold run_all_calculations. rewrite Hcalc. cbn [handle].
  now rewrite <- !app_assoc.
Qed.

Lemma no_settling_witness :
  solve zero_gravity_parameters
    (Fin (drop_diameter_formula zero_gravity_parameters)) =
  (starting_lines ++ [non_convergence_warning], Next (Fin 0, PInf)).
Proof.
  apply (no_settling_never_converges zero_gravity_parameters); in_ranges.
Defined.

(** ** A liquid that is not denser than the gas *)





